(** * Ambatuscript: the retrieval-augmented answer engine (rag_engine.py)

    A shallow embedding of [RAGEngine] and of the part of the Streamlit
    front end (app.py) that resolves document requests, together with the
    properties of the specification that concern them.

    Python text is a sequence of Unicode code points; effects (the
    similarity search of the vector store, the call to the Gemini
    back end) are recorded in a trace threaded through a small
    exception monad. *)

From Stdlib Require Import List ZArith NArith Bool Lia.
From Stdlib Require Strings.Ascii Strings.String Numbers.DecimalString.
From Equations Require Import Equations.
Import ListNotations.
Import String.StringSyntax.

Set Implicit Arguments.

(* ===================================================================== *)
(** ** Python text *)
(* ===================================================================== *)

Module PyStr.

(** A Python [str] is a sequence of code points. *)
Definition char := N.
Definition str := list char.

(** A literal of the source, read code point by code point (the literals
    of rag_engine.py are ASCII). *)
Definition py (s : String.string) : str :=
  map Ascii.N_of_ascii (String.list_ascii_of_string s).
Arguments py s%_string_scope : simpl never.

Definition nl : str := [10%N].
Definition dquote : str := [34%N].

(** [str.isspace] on one code point: the white space table of CPython
    ([_PyUnicode_IsWhitespace]). *)
Definition isspace (c : char) : bool :=
  ((9 <=? c) && (c <=? 13)
   || (28 <=? c) && (c <=? 32)
   || (c =? 133) || (c =? 160) || (c =? 5760)
   || (8192 <=? c) && (c <=? 8202)
   || (c =? 8232) || (c =? 8233) || (c =? 8239) || (c =? 8287)
   || (c =? 12288))%N.

Fixpoint dropwhile (p : char -> bool) (s : str) : str :=
  match s with
  | [] => []
  | c :: r => if p c then dropwhile p r else s
  end.

Definition lstrip (s : str) : str := dropwhile isspace s.
Definition rstrip (s : str) : str := rev (dropwhile isspace (rev s)).

(** [s.strip()] *)
Definition strip (s : str) : str := rstrip (lstrip s).

(** [s[len(p):]] when [s.startswith(p)]. *)
Fixpoint startswith (p s : str) : option str :=
  match p, s with
  | [], _ => Some s
  | _ :: _, [] => None
  | a :: p', b :: s' => if (a =? b)%N then startswith p' s' else None
  end.

(** [needle in hay] *)
Fixpoint contains (needle hay : str) : bool :=
  match startswith needle hay with
  | Some _ => true
  | None => match hay with
            | [] => false
            | _ :: r => contains needle r
            end
  end.

(** [sep.join(parts)] *)
Fixpoint join (sep : str) (parts : list str) : str :=
  match parts with
  | [] => []
  | [p] => p
  | p :: rest => p ++ sep ++ join sep rest
  end.

(** [str(n)] for an [int]. *)
Definition str_of_Z (z : Z) : str := py (DecimalString.NilZero.string_of_int (Z.to_int z)).

Definition is_lower (c : char) : bool := ((97 <=? c) && (c <=? 122))%N.
Definition is_upper (c : char) : bool := ((65 <=? c) && (c <=? 90))%N.
Definition upper (c : char) : char := if is_lower c then (c - 32)%N else c.
Definition lower (c : char) : char := if is_upper c then (c + 32)%N else c.

(** [s.capitalize()]: first character upper-cased, the others
    lower-cased.  The case mapping is the ASCII one, which is Python's
    on texts of code points below 128 (the roles app.py writes, "user",
    "assistant", "system", and the default "unknown", are such texts);
    code points from 128 on are kept as they are, where Python applies
    the Unicode mapping.  No statement below depends on the mapping:
    the label of a turn appears in them only as [capitalize] of its
    role. *)
Definition capitalize (s : str) : str :=
  match s with
  | [] => []
  | c :: r => upper c :: map lower r
  end.

(** [os.path.basename(p)] (posixpath): what follows the last slash. *)
Fixpoint basename (p : str) : str :=
  match p with
  | [] => []
  | c :: r =>
      if contains [47%N] r then basename r
      else if (c =? 47)%N then r else p
  end.

(** [a == b] *)
Fixpoint eqb (a b : str) : bool :=
  match a, b with
  | [], [] => true
  | x :: a', y :: b' => (x =? y)%N && eqb a' b'
  | _, _ => false
  end.

(** [d.get(key, default)] on the value found under a key, [None] standing
    for a key that the dict does not have. *)
Definition get {A : Type} (field : option A) (default : A) : A :=
  match field with
  | Some v => v
  | None => default
  end.

(** Normalisation of one bound of a slice [l[start:stop]] against the
    length: a negative bound counts from the end, and bounds are clamped. *)
Definition slice_index (len i : Z) : Z :=
  if (i <? 0)%Z then Z.max 0 (i + len) else Z.min i len.

(** [l[start:stop]] *)
Definition slice {A : Type} (l : list A) (start stop : Z) : list A :=
  let len := Z.of_nat (length l) in
  let a := slice_index len start in
  let b := slice_index len stop in
  firstn (Z.to_nat (b - a)) (skipn (Z.to_nat a) l).

(** [t] occurs in [s] as a contiguous run. *)
Definition substring (t s : str) : Prop :=
  exists pre post, s = pre ++ t ++ post.

End PyStr.
Import PyStr.

(* ===================================================================== *)
(** ** The directive pattern  [\[REQUEST_DOCUMENT:([^\]]+)\]] *)
(* ===================================================================== *)

Module Re.

Definition rbracket : char := 93%N.
Definition doc_request_open : str := py "[REQUEST_DOCUMENT:".

(** The character class [[^\]]]. *)
Definition not_rbracket (c : char) : bool := negb (c =? rbracket)%N.

(** Longest prefix whose characters satisfy [p], and what follows. *)
Fixpoint span (p : char -> bool) (s : str) : str * str :=
  match s with
  | [] => ([], [])
  | c :: r => if p c then let (a, b) := span p r in (c :: a, b) else ([], s)
  end.

(** The pattern anchored at the start of [s]: the literal opening, then
    the greedy group [([^\]]+)], then the closing bracket.  The group
    cannot give characters back: what follows a shorter run is not a
    closing bracket.  Returns group 1 and the text after the match. *)
Definition match_here (s : str) : option (str * str) :=
  match startswith doc_request_open s with
  | None => None
  | Some r =>
      match span not_rbracket r with
      | (c :: name, _ :: rest) => Some (c :: name, rest)
      | _ => None
      end
  end.

(** A match object: the text before the match, group 1, the text after. *)
Record re_match : Type := MkMatch { before : str; group1 : str; after : str }.

(** [re.search(doc_request_pattern, s)]: the leftmost match. *)
Fixpoint search (s : str) : option re_match :=
  match match_here s with
  | Some (name, rest) => Some (MkMatch [] name rest)
  | None =>
      match s with
      | [] => None
      | c :: r =>
          match search r with
          | Some m => Some (MkMatch (c :: before m) (group1 m) (after m))
          | None => None
          end
      end
  end.

Definition inspect {A : Type} (a : A) : {b : A | a = b} := exist _ a eq_refl.

(** [re.sub(doc_request_pattern, '', s)]: every match, found from left to
    right and each search resuming where the previous match ended, is
    replaced by the empty text. *)
Equations? sub (s : str) : str by wf (length s) lt :=
  sub s with inspect (match_here s) := {
    | exist _ (Some (name, rest)) Heq := sub rest;
    | exist _ None Heq with s := {
        | [] := [];
        | c :: r := c :: sub r } }.
Proof.
  assert (Hsw : forall p t r, startswith p t = Some r -> length r <= length t).
  { induction p as [|a p IH]; intros [|b t] r0 H; simpl in *;
      try discriminate; try (inversion H; subst; simpl; lia).
    destruct (a =? b)%N; [|discriminate].
    apply IH in H; lia. }
  assert (Hsp : forall p t, length (snd (span p t)) <= length t).
  { intros p t; induction t as [|c t IH]; simpl; [lia|].
    destruct (p c); simpl; [|lia].
    destruct (span p t); simpl in *; lia. }
  unfold match_here in Heq.
  destruct (startswith doc_request_open s) as [r|] eqn:Hs; [|discriminate].
  apply Hsw in Hs.
  specialize (Hsp not_rbracket r).
  destruct (span not_rbracket r) as [[|c nm] [|d rs]]; try discriminate.
  inversion Heq; subst; simpl in *; lia.
Qed.

End Re.
Import Re.

(* ===================================================================== *)
(** ** Effects: a trace of the calls that leave the engine *)
(* ===================================================================== *)

Module Eff.

(** The calls the engine makes to its collaborators, in the order made. *)
Inductive event : Type :=
| Search (query : str) (top_k : Z)      (* vector_store.similarity_search *)
| Generate (prompt : str).              (* model.generate_content *)

(** A Python computation returns a value or raises; [Raise e] carries
    [str(e)], the only part of an exception the engine reads. *)
Inductive outcome (A : Type) : Type :=
| Ok (a : A)
| Raise (e : str).
Arguments Ok {A} a.
Arguments Raise {A} e.

Definition M (A : Type) : Type := list event -> outcome A * list event.

Definition ret {A : Type} (a : A) : M A := fun t => (Ok a, t).

Definition bind {A B : Type} (m : M A) (k : A -> M B) : M B :=
  fun t => match m t with
           | (Ok a, t') => k a t'
           | (Raise e, t') => (Raise e, t')
           end.

(** A call to a collaborator: the call is recorded, then its outcome
    returned or raised. *)
Definition call {A : Type} (ev : event) (result : outcome A) : M A :=
  fun t => (result, t ++ [ev]).

Definition raise {A : Type} (e : str) : M A := fun t => (Raise e, t).

(** A value a pure Python expression evaluates to, or what it raises. *)
Definition lift {A : Type} (o : outcome A) : M A := fun t => (o, t).

(** [try: body  except Exception as e: handler(str(e))] *)
Definition try_except {A : Type} (body : M A) (handler : str -> M A) : M A :=
  fun t => match body t with
           | (Ok a, t') => (Ok a, t')
           | (Raise e, t') => handler e t'
           end.

(** Running a computation from an empty trace. *)
Definition run {A : Type} (m : M A) : outcome A * list event := m [].

End Eff.
Import Eff.

Notation "x <- m ;; k" := (bind m (fun x => k))
  (at level 61, m at next level, right associativity).

(* ===================================================================== *)
(** ** Data of the engine *)
(* ===================================================================== *)

(** Modelled from the spec: the chunk records returned by the similarity
    search are built in vector_store.py, which is not among the sources.
    The fields are those the engine reads ([doc['source']], [doc['text']],
    [doc['metadata']['page_start']], [doc['metadata']['page_end']]); page
    numbers are integers. *)
Record Metadata : Type := { page_start : Z; page_end : Z }.
Record doc : Type := { source : str; text : str; metadata : Metadata }.

(** A chat message: a dict; a field is [None] when the dict has no such
    key.  app.py writes [role], [content], [id], and [visible] on the
    hidden system messages and [sources] on the assistant's. *)
Record message : Type := {
  role : option str;
  content : option str;
  msg_id : option nat;
  visible : option bool;
  msg_sources : option (list doc)
}.

(** The dict a call of the engine returns.  [sources = None] and
    [document_request = None] stand for a dict without the key;
    [document_request = Some None] is the key bound to Python's [None]. *)
Record response : Type := {
  answer : str;
  sources : option (list doc);
  document_request : option (option str)
}.

(** What [model.generate_content] returns: [hasattr(response, 'text')] is
    false when [text_attr] is [None]; reading [response.text] may itself
    raise; [repr] is [str(response)]. *)
Record GenerateContentResponse : Type := {
  text_attr : option (outcome str);
  repr : str
}.

Record GenerativeModel : Type := {
  generate_content : str -> outcome GenerateContentResponse
}.

(** Modelled from the spec: the vector store (vector_store.py, not among
    the sources) is seen through its one method the engine calls,
    [similarity_search(query, top_k)], which returns ranked chunk records
    or raises. *)
Record VectorStore : Type := {
  similarity_search : str -> Z -> outcome (list doc)
}.

Record RAGEngine : Type := {
  vector_store : VectorStore;
  api_key : str;
  model_name : str;
  model : option GenerativeModel
}.

(** The two calls [__init__] makes to the [genai] library. *)
Record genai : Type := {
  configure : str -> outcome unit;
  GenerativeModel_new : str -> outcome GenerativeModel
}.

(** [RAGEngine.__init__] *)
Definition init (g : genai) (vs : VectorStore) (key : str) : RAGEngine :=
  let name := py "gemini-2.0-flash-thinking-exp-01-21" in
  let m := match configure g key with
           | Ok _ => match GenerativeModel_new g name with
                     | Ok m => Some m
                     | Raise _ => None
                     end
           | Raise _ => None
           end in
  {| vector_store := vs; api_key := key; model_name := name; model := m |}.

(* ===================================================================== *)
(** ** The methods of [RAGEngine] *)
(* ===================================================================== *)

(** *** [_process_response] *)

Definition process_response (response_text : str) : response :=
  match search response_text with
  | Some m =>
      let document_name := strip (group1 m) in
      let clean_answer := strip (sub response_text) in
      {| answer := clean_answer;
         sources := None;
         document_request := Some (Some document_name) |}
  | None =>
      {| answer := response_text; sources := None; document_request := None |}
  end.

(** *** [_generate_with_gemini] *)

Definition error_generating : str := py "Error generating response: ".

(** The body of the [try]: the call, then the text of the response. *)
Definition backend_call (self : RAGEngine) (prompt : str) : M str :=
  match model self with
  | None => raise (py "'NoneType' object has no attribute 'generate_content'")
  | Some m =>
      response <- call (Generate prompt) (generate_content m prompt) ;;
      match text_attr response with
      | Some t => lift t
      | None => ret (repr response)
      end
  end.

Definition generate_with_gemini (self : RAGEngine) (prompt : str) : M str :=
  try_except (backend_call self prompt)
             (fun e => ret (error_generating ++ e)).

(** *** [_check_recent_document_requests] *)

Definition system : str := py "system".
Definition permintaan_dokumen : str := py "permintaan dokumen".

(** [msg.get("role") == "system" and "permintaan dokumen" in
    msg.get("content", "")] *)
Definition is_request_note (msg : message) : bool :=
  match role msg with
  | Some r => eqb r system && contains permintaan_dokumen (get (content msg) [])
  | None => false
  end.

(** The loop over [reversed(chat_history)], with its [break].  The key
    read by [msg["content"]] is present whenever the test holds. *)
Fixpoint collect_requests (msgs : list message) (requests : list str) : list str :=
  match msgs with
  | [] => requests
  | msg :: rest =>
      if is_request_note msg then
        let requests := requests ++ [get (content msg) []] in
        if 3 <=? length requests then requests
        else collect_requests rest requests
      else collect_requests rest requests
  end.

Definition check_recent_document_requests (chat_history : list message) : list str :=
  collect_requests (rev chat_history) [].

(** *** [_handle_no_relevant_docs] *)

Definition fallback_head : str :=
  py "Anda adalah asisten hukum yang ahli dalam hukum Indonesia. Pengguna bertanya:" ++
  nl ++
  nl ++
  py "        " ++
  dquote.

Definition fallback_catalog : str :=
  dquote ++
  nl ++
  nl ++
  py "        Sayangnya, tidak ada dokumen yang relevan ditemukan dalam basis data kami. Namun, kami memiliki dokumen-dokumen berikut:" ++
  nl ++
  nl ++
  py "        ".

Definition fallback_tail : str :=
  nl ++
  nl ++
  py "        Berdasarkan pertanyaan pengguna, dokumen mana yang mungkin berisi informasi yang relevan? " ++
  nl ++
  py "        Format respons Anda sebagai berikut:" ++
  nl ++
  py "        1. Beri tahu pengguna bahwa Anda tidak menemukan informasi yang relevan" ++
  nl ++
  py "        2. Tanyakan apakah mereka ingin Anda mencari informasi spesifik dalam [nama dokumen yang paling relevan]" ++
  nl ++
  py "        3. Jelaskan mengapa dokumen tersebut mungkin membantu" ++
  nl ++
  py "        " ++
  nl ++
  py "        Tambahkan [REQUEST_DOCUMENT:nama_dokumen] di bagian akhir respons Anda (pengguna tidak akan melihat teks dalam tanda kurung siku ini)." ++
  nl ++
  py "        ".

Definition fallback_prompt (query : str) (available_documents : list str) : str :=
  fallback_head ++ query ++ fallback_catalog
  ++ join (py ", ") available_documents ++ fallback_tail.

Definition handle_no_relevant_docs (self : RAGEngine) (query : str)
    (chat_history : list message) (available_documents : list str) : M response :=
  let prompt := fallback_prompt query available_documents in
  suggestion <- generate_with_gemini self prompt ;;
  let processed := process_response suggestion in
  ret processed.

(** *** [_create_context] *)

Definition context_intro : str :=
  py "Here are some relevant documents to help answer the question:" ++ nl ++ nl.

Definition history_intro : str :=
  nl ++ py "Recent conversation history:" ++ nl.

(** The first loop: [for i, doc in enumerate(relevant_docs)], started at
    index [i] with the text accumulated so far. *)
Fixpoint add_documents (i : nat) (relevant_docs : list doc) (context : str) : str :=
  match relevant_docs with
  | [] => context
  | d :: rest =>
      let context :=
        context ++ py "Document " ++ str_of_Z (Z.of_nat i + 1)
        ++ py " (Source: " ++ basename (source d)
        ++ py ", Pages: " ++ str_of_Z (page_start (metadata d))
        ++ py "-" ++ str_of_Z (page_end (metadata d))
        ++ py "):" ++ nl in
      let context := context ++ text d ++ nl ++ nl in
      add_documents (S i) rest context
  end.

(** The second loop: [for msg in recent_history], with its [continue]. *)
Fixpoint add_history (recent_history : list message) (context : str) : str :=
  match recent_history with
  | [] => context
  | msg :: rest =>
      let r := get (role msg) (py "unknown") in
      if eqb r system then add_history rest context
      else
        let context :=
          context ++ capitalize r ++ py ": " ++ get (content msg) [] ++ nl in
        add_history rest context
  end.

Definition create_context (relevant_docs : list doc) (chat_history : list message) : str :=
  let context := context_intro in
  let context := add_documents 0 relevant_docs context in
  if (1 <? length chat_history) then
    let context := context ++ history_intro in
    let n := Z.of_nat (length chat_history) in
    let recent_history := slice chat_history (- Z.min 6 n) (-1) in
    add_history recent_history context
  else context.

(** *** [_create_prompt] *)

Definition prompt_role : str :=
  py "Anda adalah asisten hukum yang ahli dalam hukum Indonesia. Berdasarkan dokumen-dokumen berikut, berikan jawaban yang relevan, jelas, dan mudah dipahami." ++
  nl ++
  nl ++
  py "    ".

Definition prompt_rules : str :=
  nl ++
  nl ++
  py "    Silakan jawab pertanyaan di bawah ini berdasarkan informasi yang terdapat dalam dokumen di atas. Anda boleh menyusun ulang kalimat dengan bahasa Anda sendiri selama maknanya tetap sesuai dengan dokumen. Jangan menambahkan informasi dari luar dokumen. Jika dokumen tidak memuat informasi yang cukup, sampaikan bahwa jawabannya tidak tersedia." ++
  nl ++
  py "    ".

Definition prompt_catalog_head : str :=
  nl ++
  py "    " ++
  nl ++
  py "    Jika Anda membutuhkan informasi tambahan yang mungkin ada dalam dokumen lain, Anda dapat meminta pengguna untuk memberikan izin mengakses dokumen tertentu. Berikut daftar dokumen yang tersedia:" ++
  nl ++
  py "    " ++
  nl ++
  py "    ".

Definition prompt_catalog_tail : str :=
  nl ++
  py "    " ++
  nl ++
  py "    Jika Anda ingin meminta dokumen tertentu, tambahkan tag [REQUEST_DOCUMENT:nama_dokumen] di akhir jawaban Anda (pengguna tidak akan melihat teks dalam tanda kurung siku ini)." ++
  nl ++
  py "    ".

Definition prompt_requests_head : str :=
  nl ++
  py "    " ++
  nl ++
  py "    Informasi terkait permintaan dokumen sebelumnya:" ++
  nl ++
  py "    ".

Definition prompt_requests_tail : str :=
  nl ++
  py "    ".

Definition prompt_question : str :=
  nl ++
  py "    Question: ".

Definition prompt_answer : str :=
  nl ++
  py "    " ++
  nl ++
  py "    Answer:".

(** Truth value of an optional list argument: [None] and [[]] are false. *)
Definition truthy {A : Type} (l : option (list A)) : bool :=
  match l with
  | Some (_ :: _) => true
  | _ => false
  end.

Definition create_prompt (query context : str) (chat_history : list message)
    (available_documents : option (list str))
    (recent_document_requests : list str) : str :=
  let prompt := prompt_role ++ context ++ prompt_rules in
  let prompt :=
    if truthy available_documents then
      prompt ++ prompt_catalog_head
      ++ join (py ", ") (get available_documents []) ++ prompt_catalog_tail
    else prompt in
  let prompt :=
    if (0 <? length recent_document_requests) then
      prompt ++ prompt_requests_head
      ++ join (py " ") recent_document_requests ++ prompt_requests_tail
    else prompt in
  let prompt := prompt ++ prompt_question ++ query ++ prompt_answer in
  prompt.

(** *** [generate_response_with_chat] and [generate_response] *)

Definition not_initialized : str :=
  py "Error: Gemini API model not initialized. Please check your API key.".

Definition no_relevant_information : str :=
  py "Saya tidak dapat menemukan informasi yang relevan untuk menjawab pertanyaan Anda. Silakan coba dengan pertanyaan yang berbeda atau pastikan dokumen telah diproses.".

Definition generate_response_with_chat (self : RAGEngine) (query : str)
    (chat_history : list message) (num_results : Z)
    (available_documents : option (list str)) : M response :=
  match model self with
  | None =>
      ret {| answer := not_initialized; sources := Some [];
             document_request := None |}
  | Some _ =>
      try_except
        (let recent_document_requests :=
           check_recent_document_requests chat_history in
         relevant_docs <-
           call (Search query num_results)
                (similarity_search (vector_store self) query num_results) ;;
         match relevant_docs with
         | [] =>
             if truthy available_documents then
               handle_no_relevant_docs self query chat_history
                                       (get available_documents [])
             else
               ret {| answer := no_relevant_information; sources := Some [];
                      document_request := None |}
         | _ :: _ =>
             let context := create_context relevant_docs chat_history in
             let prompt :=
               create_prompt query context chat_history available_documents
                             recent_document_requests in
             raw_response <- generate_with_gemini self prompt ;;
             let processed_response := process_response raw_response in
             ret {| answer := answer processed_response;
                    sources := Some relevant_docs;
                    document_request :=
                      Some (get (document_request processed_response) None) |}
         end)
        (fun e =>
           ret {| answer := error_generating ++ e; sources := Some [];
                  document_request := None |})
  end.

(** The default of [num_results]. *)
Definition default_num_results : Z := 3.

Definition generate_response (self : RAGEngine) (query : str)
    (num_results : Z) : M response :=
  let fake_history :=
    [ {| role := Some (py "user"); content := Some query; msg_id := None;
         visible := None; msg_sources := None |} ] in
  generate_response_with_chat self query fake_history num_results None.

(* ===================================================================== *)
(** ** The session of app.py *)
(* ===================================================================== *)

Module App.

Record session_state : Type := {
  chat_history : list message;
  pending_doc_request : option str;
  available_documents : list str
}.

(** Truth value of [st.session_state.pending_doc_request]. *)
Definition pending (st : session_state) : option str :=
  match pending_doc_request st with
  | Some (c :: r) => Some (c :: r)
  | _ => None
  end.

Definition resolution (wording : str) (st : session_state) : session_state :=
  match pending st with
  | None => st
  | Some name =>
      {| chat_history :=
           chat_history st ++
           [ {| role := Some system;
                content := Some (wording ++ name);
                msg_id := Some (length (chat_history st));
                visible := Some false;
                msg_sources := None |} ];
         pending_doc_request := None;
         available_documents := available_documents st |}
  end.

(** The "Setuju" button. *)
Definition setuju : session_state -> session_state :=
  resolution (py "User menyetujui permintaan dokumen: ").

(** The "Tolak" button. *)
Definition tolak : session_state -> session_state :=
  resolution (py "User menolak permintaan dokumen: ").

(** The block under [if user_input:], for the text typed. *)
Definition answer_question (engine : RAGEngine) (num_results : Z) (text : str)
    (st : session_state) : M session_state :=
  let history :=
    chat_history st ++
    [ {| role := Some (py "user"); content := Some text;
         msg_id := Some (length (chat_history st));
         visible := None; msg_sources := None |} ] in
  response <-
    generate_response_with_chat engine text history num_results
                                (Some (available_documents st)) ;;
  let pending :=
    match document_request response with
    | Some (Some (c :: r)) => Some (c :: r)
    | _ => pending_doc_request st
    end in
  ret {| chat_history :=
           history ++
           [ {| role := Some (py "assistant");
                content := Some (answer response);
                msg_id := Some (length history);
                visible := None;
                msg_sources := Some (get (sources response) []) |} ];
         pending_doc_request := pending;
         available_documents := available_documents st |}.

(** One run of the chat input.  [st.chat_input] gives [None] when
    nothing was submitted; the guard [if user_input:] skips [None] and
    the empty text, and the session is then left as it is. *)
Definition user_input (engine : RAGEngine) (num_results : Z)
    (user_input : option str) (st : session_state) : M session_state :=
  match user_input with
  | Some (c :: r) => answer_question engine num_results (c :: r) st
  | _ => ret st
  end.

End App.

(* ===================================================================== *)
(** ** The vocabulary of the specification *)
(* ===================================================================== *)

Module Spec.

(** The text of a directive that names [name]. *)
Definition directive (name : str) : str :=
  doc_request_open ++ name ++ [rbracket].

(** What may stand between the colon and the closing bracket: a
    non-empty run of characters other than the closing bracket. *)
Definition valid_name (name : str) : Prop :=
  name <> [] /\ Forall (fun c => c <> rbracket) name.

(** [text] holds a directive naming [name] between [pre] and [post]. *)
Definition occurrence (text pre name post : str) : Prop :=
  valid_name name /\ text = pre ++ directive name ++ post.

Definition has_occurrence (text : str) : Prop :=
  exists pre name post, occurrence text pre name post.

(** The occurrence that starts first. *)
Definition first_occurrence (text pre name post : str) : Prop :=
  occurrence text pre name post /\
  forall pre' name' post',
    occurrence text pre' name' post' -> length pre <= length pre'.

(** [removal text ds rest]: reading [text] from the left, [ds] lists the
    successive first occurrences, each given by the text that precedes
    it (since the end of the previous one) and its name; [rest] is what
    follows the last of them and holds no occurrence. *)
Inductive removal : str -> list (str * str) -> str -> Prop :=
| removal_done (text : str) :
    ~ has_occurrence text -> removal text [] text
| removal_step (text pre name post : str) (ds : list (str * str)) (rest : str) :
    first_occurrence text pre name post ->
    removal post ds rest ->
    removal text ((pre, name) :: ds) rest.

Definition whitespace (s : str) : Prop := Forall (fun c => isspace c = true) s.

(** [t] has no white space at either end. *)
Definition trimmed (t : str) : Prop :=
  (forall c r, t = c :: r -> isspace c = false) /\
  (forall r c, t = r ++ [c] -> isspace c = false).

(** [t] is [s] without the white space at its two ends. *)
Definition trim_of (s t : str) : Prop :=
  trimmed t /\ exists l r, s = l ++ t ++ r /\ whitespace l /\ whitespace r.

(** The last [n] elements of a list. *)
Definition lastn {A : Type} (n : nat) (l : list A) : list A :=
  skipn (length l - n) l.

Definition non_system (msg : message) : bool :=
  negb (eqb (get (role msg) (py "unknown")) system).

(** One retrieved chunk as a labeled block: rank, source name, page
    range, then the text of the chunk. *)
Definition document_block (rank : nat) (d : doc) : str :=
  py "Document " ++ str_of_Z (Z.of_nat rank) ++ py " (Source: "
  ++ basename (source d) ++ py ", Pages: "
  ++ str_of_Z (page_start (metadata d)) ++ py "-"
  ++ str_of_Z (page_end (metadata d)) ++ py "):" ++ nl
  ++ text d ++ nl ++ nl.

(** The blocks of the chunks in ranked order, ranks counted from [i]. *)
Fixpoint document_blocks (i : nat) (docs : list doc) : str :=
  match docs with
  | [] => []
  | d :: rest => document_block i d ++ document_blocks (S i) rest
  end.

(** One conversation turn labeled with its role. *)
Definition turn_line (msg : message) : str :=
  capitalize (get (role msg) (py "unknown")) ++ py ": "
  ++ get (content msg) [] ++ nl.

Definition turn_lines (msgs : list message) : str :=
  concat (map turn_line msgs).

(** The turns the specification asks the context to end with: the last
    min(5, length - 1) non-system turns before the one being answered. *)
Definition turns_as_specified (history : list message) : list message :=
  lastn (Nat.min 5 (length history - 1)) (filter non_system (removelast history)).

(** The turns the context is built from: the non-system turns among the
    last min(5, length - 1) turns before the one being answered. *)
Definition turns_in_window (history : list message) : list message :=
  filter non_system (lastn (Nat.min 5 (length history - 1)) (removelast history)).

(** The context around a given choice of turns. *)
Definition context_with (turns : list message -> list message)
    (results : list doc) (history : list message) : str :=
  context_intro ++ document_blocks 1 results
  ++ (if 1 <? length history
      then history_intro ++ turn_lines (turns history)
      else []).

(** What the [try] of [_generate_with_gemini] evaluates to. *)
Definition backend_outcome (m : GenerativeModel) (prompt : str) : outcome str :=
  match generate_content m prompt with
  | Ok r => get (text_attr r) (Ok (repr r))
  | Raise e => Raise e
  end.

(** The back end fails on [prompt]: the call raises, or the response it
    returns has no readable text. *)
Definition backend_fails (m : GenerativeModel) (prompt e : str) : Prop :=
  backend_outcome m prompt = Raise e.

(** The text [_generate_with_gemini] hands back for [prompt]. *)
Definition generated (m : GenerativeModel) (prompt : str) : str :=
  match backend_outcome m prompt with
  | Ok s => s
  | Raise e => error_generating ++ e
  end.

(** [t] is the beginning of [s]. *)
Definition prefix (t s : str) : Prop := exists post, s = t ++ post.

(** A hidden system turn with content [c]. *)
Definition system_turn (c : str) (n : nat) : message :=
  {| role := Some system; content := Some c; msg_id := Some n;
     visible := Some false; msg_sources := None |}.

Definition user_turn (c : str) (n : nat) : message :=
  {| role := Some (py "user"); content := Some c; msg_id := Some n;
     visible := None; msg_sources := None |}.

End Spec.
Import Spec.

(* ===================================================================== *)
(** ** Sample inputs *)
(* ===================================================================== *)

Module Sample.

Definition chunk : doc :=
  {| source := py "processed_data/UU-1.pdf";
     text := py "Pasal 1";
     metadata := {| page_start := 3; page_end := 4 |} |}.

Definition store_of (docs : list doc) : VectorStore :=
  {| similarity_search := fun _ _ => Ok docs |}.

(** A back end that answers every prompt with [s]. *)
Definition replying (s : str) : GenerativeModel :=
  {| generate_content := fun _ =>
       Ok {| text_attr := Some (Ok s); repr := py "<response>" |} |}.

(** A back end whose every call raises. *)
Definition failing : GenerativeModel :=
  {| generate_content := fun _ => Raise (py "429 quota exceeded") |}.

Definition engine (docs : list doc) (m : option GenerativeModel) : RAGEngine :=
  {| vector_store := store_of docs;
     api_key := py "key";
     model_name := py "gemini-2.0-flash-thinking-exp-01-21";
     model := m |}.

(** A [genai] library that rejects the key. *)
Definition genai_rejecting : genai :=
  {| configure := fun _ => Raise (py "invalid API key");
     GenerativeModel_new := fun _ => Ok failing |}.

Definition question : str := py "Apa sanksi pidana pencurian?".

Definition catalog : list str := [py "UU-1.pdf"; py "UU-2.pdf"].

Definition approval : str := py "User menyetujui permintaan dokumen: UU-1.pdf".

Definition turn (r c : str) : message :=
  {| role := Some r; content := Some c; msg_id := None;
     visible := None; msg_sources := None |}.

(** Eight turns; a hidden system turn stands among the five that
    precede the question. *)
Definition long_history : list message :=
  [ turn (py "user") (py "u0"); turn (py "assistant") (py "a0");
    turn (py "user") (py "u1"); turn (py "assistant") (py "a1");
    turn system approval;
    turn (py "user") (py "u2"); turn (py "assistant") (py "a2");
    turn (py "user") question ].

Definition two_directives : str :=
  py "Lihat [REQUEST_DOCUMENT: UU-1.pdf ] atau [REQUEST_DOCUMENT:UU-2.pdf] ".

End Sample.

(* ===================================================================== *)
(** ** The chat area of app.py *)
(* ===================================================================== *)

Module Chat.

(** The content of a request note, as [_check_recent_document_requests]
    reads it. *)
Definition note_text (msg : message) : str := get (content msg) [].

(** Every message carries as [id] its position in the history. *)
Definition positions_ok (history : list message) : Prop :=
  forall i msg, nth_error history i = Some msg -> msg_id msg = Some i.

(** [d[key]]: the value, or [KeyError(key)]. *)
Definition item {A : Type} (key : str) (field : option A) : outcome A :=
  match field with
  | Some v => Ok v
  | None => Raise (py "'" ++ key ++ py "'")
  end.

(** What the page shows, in the order written. *)
Inductive widget : Type :=
| chat_write (name : str) (body : str)          (* st.chat_message(name): st.write *)
| expander_write (body : str)                   (* st.write inside "Lihat Sumber" *)
| text_area (label value key : str).

(** The loop over the sources of one assistant message:
    [for i, source in enumerate(message["sources"])], started at [i]. *)
Fixpoint show_sources (message : message) (i : nat) (srcs : list doc)
    : list widget * outcome unit :=
  match srcs with
  | [] => ([], Ok tt)
  | src :: rest =>
      let number := str_of_Z (Z.of_nat i + 1) in
      let written :=
        [ expander_write (py "**Sumber " ++ number ++ py ":** "
                          ++ basename (source src));
          expander_write (py "**Halaman:** "
                          ++ str_of_Z (page_start (metadata src)) ++ py "-"
                          ++ str_of_Z (page_end (metadata src))) ] in
      match item (py "id") (msg_id message) with
      | Raise e => (written, Raise e)
      | Ok n =>
          let area :=
            text_area (py "Konten sumber " ++ number) (text src)
                      (py "source_" ++ str_of_Z (Z.of_nat n) ++ py "_"
                       ++ str_of_Z (Z.of_nat i)) in
          let (more, end_) := show_sources message (S i) rest in
          (written ++ area :: more, end_)
      end
  end.

(** The body of the display loop for one message. *)
Definition show_message (message : message) : list widget * outcome unit :=
  match item (py "role") (role message) with
  | Raise e => ([], Raise e)
  | Ok r =>
      if eqb r (py "user") then
        match item (py "content") (content message) with
        | Raise e => ([], Raise e)
        | Ok c => ([chat_write (py "user") c], Ok tt)
        end
      else if eqb r (py "assistant") then
        match item (py "content") (content message) with
        | Raise e => ([], Raise e)
        | Ok c =>
            if truthy (msg_sources message) then
              let (shown, end_) :=
                show_sources message 0 (get (msg_sources message) []) in
              (chat_write (py "assistant") c :: shown, end_)
            else ([chat_write (py "assistant") c], Ok tt)
        end
      else ([], Ok tt)
  end.

(** [for message in st.session_state.chat_history: ...]: the widgets
    written, and whether the loop ended or raised. *)
Fixpoint show_history (history : list message) : list widget * outcome unit :=
  match history with
  | [] => ([], Ok tt)
  | message :: rest =>
      match show_message message with
      | (shown, Ok _) =>
          let (more, end_) := show_history rest in (shown ++ more, end_)
      | (shown, Raise e) => (shown, Raise e)
      end
  end.

End Chat.
Import Chat.

Module Sample2.

(** A session with a request pending after one exchange. *)
Definition waiting : App.session_state :=
  {| App.chat_history :=
       [ user_turn Sample.question 0;
         {| role := Some (py "assistant"); content := Some (py "Baik.");
            msg_id := Some 1; visible := None;
            msg_sources := Some [Sample.chunk] |} ];
     App.pending_doc_request := Some (py "UU-2.pdf");
     App.available_documents := Sample.catalog |}.

(** A back end that raises a message which quotes a directive. *)
Definition echoing : GenerativeModel :=
  {| generate_content := fun _ =>
       Raise (py "blocked: [REQUEST_DOCUMENT: UU-2.pdf ] not allowed") |}.

Definition broken_store : VectorStore :=
  {| similarity_search := fun _ _ => Raise (py "embedding failed") |}.

Definition broken_engine : RAGEngine :=
  {| vector_store := broken_store;
     api_key := py "key";
     model_name := py "gemini-2.0-flash-thinking-exp-01-21";
     model := Some Sample.failing |}.

End Sample2.

(* ===================================================================== *)
(** ** Text: prefixes, containment, trimming, slices *)
(* ===================================================================== *)

Lemma startswith_app (p s r : str) : startswith p s = Some r -> s = p ++ r.
Proof.
  revert s; induction p as [|a p IH]; intros s H; simpl in *.
  - now inversion H.
  - destruct s as [|b s]; [discriminate|].
    destruct (N.eqb_spec a b); [|discriminate].
    subst; f_equal; auto.
Qed.

Lemma startswith_refl (p r : str) : startswith p (p ++ r) = Some r.
Proof.
  induction p as [|a p IH]; simpl; [reflexivity|].
  now rewrite N.eqb_refl.
Qed.

Lemma contains_eq (needle hay : str) :
  contains needle hay =
  match startswith needle hay with
  | Some _ => true
  | None => match hay with [] => false | _ :: r => contains needle r end
  end.
Proof. destruct hay; reflexivity. Qed.

Lemma contains_spec (needle hay : str) :
  contains needle hay = true <-> substring needle hay.
Proof.
  induction hay as [|c hay IH]; rewrite contains_eq.
  - destruct (startswith needle []) as [r|] eqn:E.
    + split; [intros _|reflexivity].
      apply startswith_app in E. now exists [], r.
    + split; [discriminate|].
      intros (pre & post & H). destruct pre; [|discriminate].
      simpl in H. rewrite H, startswith_refl in E. discriminate.
  - destruct (startswith needle (c :: hay)) as [r|] eqn:E.
    + split; [intros _|reflexivity].
      apply startswith_app in E. now exists [], r.
    + rewrite IH. split.
      * intros (pre & post & H). exists (c :: pre), post. now rewrite H.
      * intros (pre & post & H). destruct pre as [|c' pre].
        -- simpl in H. rewrite H, startswith_refl in E. discriminate.
        -- inversion H; subst. now exists pre, post.
Qed.

Lemma eqb_spec (a b : str) : eqb a b = true <-> a = b.
Proof.
  revert b; induction a as [|x a IH]; intros [|y b]; simpl;
    try (split; [discriminate|discriminate]); [tauto|].
  rewrite andb_true_iff, N.eqb_eq, IH.
  split; [intros [-> ->]; reflexivity | intros H; inversion H; auto].
Qed.

Lemma substring_refl_app (pre t post : str) : substring t (pre ++ t ++ post).
Proof. now exists pre, post. Qed.

Lemma substring_trans (a b c : str) :
  substring a b -> substring b c -> substring a c.
Proof.
  intros (p1 & q1 & ->) (p2 & q2 & ->).
  exists (p2 ++ p1), (q1 ++ q2). now rewrite <- !app_assoc.
Qed.

Lemma substring_app_l (t a b : str) : substring t a -> substring t (a ++ b).
Proof.
  intros (p & q & ->). exists p, (q ++ b). now rewrite <- !app_assoc.
Qed.

Lemma substring_app_r (t a b : str) : substring t b -> substring t (a ++ b).
Proof.
  intros (p & q & ->). exists (a ++ p), q. now rewrite <- !app_assoc.
Qed.

Lemma join_substring (sep : str) (parts : list str) (x : str) :
  In x parts -> substring x (join sep parts).
Proof.
  induction parts as [|p rest IH]; [contradiction|].
  intros [->|Hin].
  - destruct rest; [exists [], []; simpl; now rewrite app_nil_r|].
    now exists [], (sep ++ join sep (s :: rest)).
  - destruct rest as [|q rest]; [contradiction|].
    change (join sep (p :: q :: rest)) with (p ++ sep ++ join sep (q :: rest)).
    apply substring_app_r, substring_app_r. auto.
Qed.

Lemma app_inv_length {A : Type} (a a' b b' : list A) :
  length a = length a' -> a ++ b = a' ++ b' -> a = a' /\ b = b'.
Proof.
  revert a'; induction a as [|x a IH]; intros [|y a'] Hl H;
    simpl in *; try discriminate; [auto|].
  inversion H; subst. destruct (IH a') as [-> ->]; auto.
Qed.

Lemma dropwhile_split (p : char -> bool) (s : str) :
  exists l, s = l ++ dropwhile p s /\ Forall (fun c => p c = true) l.
Proof.
  induction s as [|c s (l & Hl & Hp)]; simpl.
  - now exists [].
  - destruct (p c) eqn:E.
    + exists (c :: l). split; [simpl; now f_equal | now constructor].
    + now exists [].
Qed.

Lemma dropwhile_head (p : char -> bool) (s : str) (c : char) (r : str) :
  dropwhile p s = c :: r -> p c = false.
Proof.
  induction s as [|d s IH]; simpl; [discriminate|].
  destruct (p d) eqn:E; [assumption|].
  intros H; inversion H; now subst.
Qed.

Lemma dropwhile_keep (p : char -> bool) (x : str) (c : char) (z : str) :
  p c = false -> exists y, dropwhile p (x ++ c :: z) = y ++ c :: z.
Proof.
  intros Hc. induction x as [|d x (y & Hy)]; simpl.
  - rewrite Hc. now exists [].
  - destruct (p d); [now exists y|]. now exists (d :: x).
Qed.

Lemma strip_spec (s : str) : trim_of s (strip s).
Proof.
  unfold strip, rstrip, lstrip.
  destruct (dropwhile_split isspace s) as (l & Hl & Hlw).
  destruct (dropwhile_split isspace (rev (dropwhile isspace s))) as (r & Hr & Hrw).
  set (t := dropwhile isspace (rev (dropwhile isspace s))) in *.
  assert (Ht : dropwhile isspace s = rev t ++ rev r).
  { rewrite <- rev_app_distr, <- Hr. now rewrite rev_involutive. }
  split; [split|].
  - intros c q Hq.
    apply (@dropwhile_head isspace s c (q ++ rev r)).
    now rewrite Ht, Hq.
  - intros q c Hq.
    apply (@dropwhile_head isspace (rev (dropwhile isspace s)) c (rev q)).
    fold t. rewrite <- (rev_involutive t), Hq, rev_app_distr. reflexivity.
  - exists l, (rev r). split; [|split].
    + now rewrite <- Ht.
    + exact Hlw.
    + unfold whitespace. apply Forall_rev. exact Hrw.
Qed.

(** Trimming keeps a beginning that ends with a character which is not
    white space and starts with one. *)
Lemma strip_keeps (a : str) (c d : char) (x : str) :
  isspace c = false -> isspace d = false ->
  prefix (c :: a ++ [d]) (strip (c :: a ++ d :: x)).
Proof.
  intros Hc Hd. unfold strip, lstrip, rstrip.
  simpl dropwhile. rewrite Hc.
  assert (E : rev (c :: a ++ d :: x) = rev x ++ d :: rev (c :: a)).
  { change (c :: a ++ d :: x) with ((c :: a) ++ d :: x).
    rewrite rev_app_distr. change (rev (d :: x)) with (rev x ++ [d]).
    now rewrite <- app_assoc. }
  destruct (@dropwhile_keep isspace (rev x) d (rev (c :: a)) Hd) as (y & Hy).
  rewrite E, Hy, rev_app_distr.
  change (rev (d :: rev (c :: a))) with (rev (rev (c :: a)) ++ [d]).
  rewrite rev_involutive. exists (rev y). reflexivity.
Qed.

Lemma skipn_removelast {A : Type} (n : nat) (l : list A) :
  n < length l -> skipn n (removelast l) = removelast (skipn n l).
Proof.
  revert l; induction n as [|n IH]; intros [|x l] H; simpl in *; try lia; auto.
  destruct l as [|y l]; [simpl in H; lia|].
  rewrite IH by (simpl in *; lia).
  destruct n; [reflexivity|]. simpl. reflexivity.
Qed.

Lemma firstn_removelast {A : Type} (l : list A) :
  firstn (length l - 1) l = removelast l.
Proof.
  rewrite Nat.sub_1_r. symmetry. apply removelast_firstn_len.
Qed.

(** The slice [l[-min(6, len(l)):-1]] of a list of at least two elements
    is made of the last min(5, len(l) - 1) elements before the final one. *)
Lemma slice_recent {A : Type} (l : list A) :
  1 < length l ->
  slice l (- Z.min 6 (Z.of_nat (length l))) (-1) =
  lastn (Nat.min 5 (length l - 1)) (removelast l).
Proof.
  intros Hlen. unfold slice, slice_index, lastn.
  set (n := length l) in *.
  assert (Hrl : length (removelast l) = n - 1).
  { rewrite <- firstn_removelast, length_firstn. fold n. lia. }
  rewrite Hrl.
  destruct (Z.ltb_spec (- Z.min 6 (Z.of_nat n)) 0) as [_|H]; [|lia].
  destruct (Z.ltb_spec (-1) 0) as [_|H]; [|lia].
  replace (Z.to_nat (Z.max 0 (- Z.min 6 (Z.of_nat n) + Z.of_nat n)))
    with (n - 1 - Nat.min 5 (n - 1)) by lia.
  replace (Z.to_nat (Z.max 0 (-1 + Z.of_nat n)
                     - Z.max 0 (- Z.min 6 (Z.of_nat n) + Z.of_nat n)))
    with (Nat.min 5 (n - 1)) by lia.
  rewrite skipn_removelast by (fold n; lia).
  rewrite <- firstn_removelast, length_skipn. fold n.
  f_equal. lia.
Qed.

(* ===================================================================== *)
(** ** The pattern matcher against the occurrences of the directive *)
(* ===================================================================== *)

Lemma span_spec (p : char -> bool) (s : str) :
  s = fst (span p s) ++ snd (span p s) /\
  Forall (fun c => p c = true) (fst (span p s)) /\
  (forall c r, snd (span p s) = c :: r -> p c = false).
Proof.
  induction s as [|c s (IH1 & IH2 & IH3)]; simpl.
  - repeat split; [constructor | discriminate].
  - destruct (p c) eqn:E.
    + destruct (span p s) as [a b]; simpl in *.
      repeat split; [now f_equal | now constructor | exact IH3].
    + simpl. repeat split; [constructor|].
      intros d r H; inversion H; now subst.
Qed.

Lemma span_stop (p : char -> bool) (a : str) (c : char) (r : str) :
  Forall (fun x => p x = true) a -> p c = false ->
  span p (a ++ c :: r) = (a, c :: r).
Proof.
  intros Ha Hc. induction Ha as [|x a Hx _ IH]; simpl.
  - now rewrite Hc.
  - now rewrite Hx, IH.
Qed.

Lemma not_rbracket_true (c : char) : not_rbracket c = true <-> c <> rbracket.
Proof.
  unfold not_rbracket. rewrite negb_true_iff, N.eqb_neq. tauto.
Qed.

Lemma not_rbracket_false (c : char) : not_rbracket c = false -> c = rbracket.
Proof.
  unfold not_rbracket. rewrite negb_false_iff, N.eqb_eq. tauto.
Qed.

(** The anchored matcher succeeds exactly on the texts that begin with a
    directive, and returns its name and what follows it. *)
Lemma match_here_spec (s name rest : str) :
  match_here s = Some (name, rest) <->
  valid_name name /\ s = directive name ++ rest.
Proof.
  unfold match_here, directive, valid_name. split.
  - destruct (startswith doc_request_open s) as [r|] eqn:Hs; [|discriminate].
    apply startswith_app in Hs.
    destruct (span_spec not_rbracket r) as (H1 & H2 & H3).
    destruct (span not_rbracket r) as [[|c nm] [|d rs]]; try discriminate.
    intros H; inversion H; subst name rest; clear H. simpl in H1, H2, H3.
    specialize (H3 d rs eq_refl). apply not_rbracket_false in H3. subst d.
    split; [split; [discriminate|]|].
    + eapply Forall_impl; [|exact H2].
      intros a Ha. now apply not_rbracket_true.
    + rewrite Hs, H1. rewrite <- !app_assoc. reflexivity.
  - intros [[Hne Hall] ->].
    rewrite <- !app_assoc, startswith_refl.
    change ([rbracket] ++ rest) with (rbracket :: rest).
    rewrite span_stop.
    + destruct name; [congruence|reflexivity].
    + eapply Forall_impl; [|exact Hall].
      intros a Ha. now apply not_rbracket_true.
    + unfold not_rbracket. now rewrite N.eqb_refl.
Qed.

Lemma search_eq (s : str) :
  search s =
  match match_here s with
  | Some (name, rest) => Some (MkMatch [] name rest)
  | None =>
      match s with
      | [] => None
      | c :: r =>
          match search r with
          | Some m => Some (MkMatch (c :: before m) (group1 m) (after m))
          | None => None
          end
      end
  end.
Proof. destruct s; reflexivity. Qed.

Lemma occurrence_nil (s name post : str) :
  occurrence s [] name post -> match_here s = Some (name, post).
Proof. intros [Hv Hs]. apply match_here_spec. now split. Qed.

Lemma occurrence_cons (c : char) (s pre name post : str) :
  occurrence (c :: s) (c :: pre) name post <-> occurrence s pre name post.
Proof.
  unfold occurrence. split; intros [Hv H]; split; auto.
  - now inversion H.
  - simpl. now f_equal.
Qed.

(** [re.search] finds nothing only in a text without occurrence. *)
Lemma search_None (s : str) : search s = None -> ~ has_occurrence s.
Proof.
  induction s as [|c s IH]; rewrite search_eq;
    destruct (match_here _) as [[n r]|] eqn:Hm; try discriminate.
  - intros _ (pre & name & post & Ho). destruct pre as [|d pre].
    + apply occurrence_nil in Ho. congruence.
    + destruct Ho as [_ Ho]. discriminate.
  - destruct (search s) eqn:Hs; [discriminate|]. intros _ (pre & name & post & Ho).
    destruct pre as [|d pre].
    + apply occurrence_nil in Ho. congruence.
    + assert (d = c) as -> by (destruct Ho as [_ Ho]; now inversion Ho).
      apply (proj1 (occurrence_cons _ _ _ _ _)) in Ho. apply IH; [reflexivity|].
      now exists pre, name, post.
Qed.

(** What [re.search] finds is the first occurrence. *)
Lemma search_Some (s : str) (m : re_match) :
  search s = Some m -> first_occurrence s (before m) (group1 m) (after m).
Proof.
  revert m; induction s as [|c s IH]; intros m; rewrite search_eq;
    destruct (match_here _) as [[n r]|] eqn:Hm; try discriminate.
  - intros H; inversion H; subst; simpl.
    apply match_here_spec in Hm. split; [exact Hm | simpl; intros; lia].
  - destruct (search s) as [m'|] eqn:Hs; [|discriminate].
    intros H; inversion H; subst; simpl. clear H.
    destruct (IH m' eq_refl) as [Ho Hmin]. split.
    + now apply occurrence_cons.
    + intros pre' name' post' Ho'. destruct pre' as [|d pre'].
      * apply occurrence_nil in Ho'. congruence.
      * assert (d = c) as -> by (destruct Ho' as [_ Ho']; now inversion Ho').
        apply (proj1 (occurrence_cons _ _ _ _ _)) in Ho'. apply Hmin in Ho'. simpl. lia.
Qed.

(** The first occurrence is the one [re.search] returns. *)
Lemma first_occurrence_search (s pre name post : str) :
  first_occurrence s pre name post ->
  search s = Some (MkMatch pre name post).
Proof.
  intros [Ho Hmin].
  destruct (search s) as [m|] eqn:Hs.
  - destruct (@search_Some s _ Hs) as [Ho' Hmin'].
    destruct m as [pre' name' post']; simpl in *.
    assert (Hlen : length pre = length pre').
    { apply Nat.le_antisymm; [eapply Hmin | eapply Hmin']; eauto. }
    destruct Ho as [Hv E], Ho' as [Hv' E'].
    rewrite E in E'.
    destruct (app_inv_length _ _ _ _ Hlen E') as [<- E2].
    assert (H1 : match_here (directive name ++ post) = Some (name, post))
      by (apply match_here_spec; auto).
    assert (H2 : match_here (directive name ++ post) = Some (name', post'))
      by (apply match_here_spec; auto).
    rewrite H1 in H2. now inversion H2.
  - exfalso. apply (@search_None s Hs). now exists pre, name, post.
Qed.

Lemma has_occurrence_first (s : str) :
  has_occurrence s -> exists pre name post, first_occurrence s pre name post.
Proof.
  intros Ho. destruct (search s) as [m|] eqn:Hs.
  - exists (before m), (group1 m), (after m). now apply search_Some.
  - now apply search_None in Hs.
Qed.

Lemma sub_eq (s : str) :
  sub s =
  match match_here s with
  | Some (_, rest) => sub rest
  | None => match s with [] => [] | c :: r => c :: sub r end
  end.
Proof.
  funelim (sub s); try rewrite Heq; reflexivity.
Qed.

(** [re.sub] in terms of [re.search]: the text before the first match,
    then the rest treated the same way. *)
Lemma sub_search (s : str) :
  sub s =
  match search s with
  | Some m => before m ++ sub (after m)
  | None => s
  end.
Proof.
  induction s as [|c s IH]; rewrite sub_eq, search_eq;
    destruct (match_here _) as [[n r]|]; try reflexivity.
  rewrite IH. destruct (search s); reflexivity.
Qed.

Lemma sub_removal (text : str) (ds : list (str * str)) (rest : str) :
  removal text ds rest -> sub text = concat (map fst ds) ++ rest.
Proof.
  induction 1 as [text Hno | text pre name post ds rest Hf _ IH].
  - rewrite sub_search. destruct (search text) as [m|] eqn:Hs; [|reflexivity].
    exfalso. apply Hno. destruct (@search_Some text _ Hs) as [Ho _].
    now exists (before m), (group1 m), (after m).
  - rewrite sub_search, (@first_occurrence_search _ _ _ _ Hf). simpl.
    now rewrite IH, app_assoc.
Qed.

Lemma occurrence_after_shorter (text pre name post : str) :
  occurrence text pre name post -> length post < length text.
Proof.
  intros [[Hne _] ->]. unfold directive. rewrite !length_app. simpl. lia.
Qed.

(** Every text decomposes along its successive first occurrences. *)
Lemma removal_total (text : str) : exists ds rest, removal text ds rest.
Proof.
  remember (length text) as n eqn:Hn.
  revert text Hn. induction n as [n IH] using lt_wf_ind. intros text Hn.
  destruct (search text) as [m|] eqn:Hs.
  - pose proof (@search_Some text _ Hs) as Hf.
    destruct (IH (length (after m))) with (text := after m) as (ds & rest & Hr);
      [subst n; eapply occurrence_after_shorter; apply Hf | reflexivity |].
    exists ((before m, group1 m) :: ds), rest. econstructor; eauto.
  - exists [], text. constructor. now apply search_None.
Qed.

Lemma removal_functional (text : str) (ds ds' : list (str * str)) (rest rest' : str) :
  removal text ds rest -> removal text ds' rest' -> ds = ds' /\ rest = rest'.
Proof.
  intros H; revert ds' rest'.
  induction H as [text Hno | text pre name post ds rest Hf _ IH];
    intros ds' rest' H'; inversion H'; subst.
  - auto.
  - exfalso. apply Hno. destruct H as [Ho _]. now exists pre, name, post.
  - exfalso. apply H. destruct Hf as [Ho _]. now exists pre, name, post.
  - apply first_occurrence_search in Hf, H. rewrite Hf in H.
    inversion H; subst. destruct (IH _ _ H0) as [-> ->]. auto.
Qed.

(* ===================================================================== *)
(** ** The response parser ([_process_response]) *)
(* ===================================================================== *)

Lemma process_response_found (raw pre name post : str) :
  first_occurrence raw pre name post ->
  process_response raw =
  {| answer := strip (pre ++ sub post); sources := None;
     document_request := Some (Some (strip name)) |}.
Proof.
  intros Hf. unfold process_response.
  rewrite (@first_occurrence_search _ _ _ _ Hf). simpl.
  rewrite (sub_search raw), (@first_occurrence_search _ _ _ _ Hf). reflexivity.
Qed.

Lemma process_response_plain (raw : str) :
  ~ has_occurrence raw ->
  process_response raw =
  {| answer := raw; sources := None; document_request := None |}.
Proof.
  intros Hno. unfold process_response.
  destruct (search raw) as [m|] eqn:Hs; [|reflexivity].
  exfalso. apply Hno. destruct (@search_Some raw _ Hs) as [Ho _].
  now exists (before m), (group1 m), (after m).
Qed.

Lemma sub_plain (s : str) : ~ has_occurrence s -> sub s = s.
Proof.
  intros Hno. rewrite sub_search.
  destruct (search s) as [m|] eqn:Hs; [|reflexivity].
  exfalso. apply Hno. destruct (@search_Some s _ Hs) as [Ho _].
  now exists (before m), (group1 m), (after m).
Qed.

(** C4. When the raw text holds a directive [REQUEST_DOCUMENT:<name>],
    the parser returns the text with the (first) directive cut out and
    trimmed, and requests the trimmed name; a text without directive is
    returned unchanged with no request; and the sample of the
    specification parses to answer "foo", request "bar.pdf". *)
Theorem process_response_directive (raw : str) :
  (has_occurrence raw ->
   exists pre name post,
     first_occurrence raw pre name post /\
     document_request (process_response raw) = Some (Some (strip name)) /\
     trim_of name (strip name) /\
     answer (process_response raw) = strip (pre ++ sub post) /\
     (~ has_occurrence post ->
      answer (process_response raw) = strip (pre ++ post))) /\
  (~ has_occurrence raw ->
   answer (process_response raw) = raw /\
   document_request (process_response raw) = None) /\
  process_response (py "foo [REQUEST_DOCUMENT: bar.pdf ]") =
  {| answer := py "foo"; sources := None;
     document_request := Some (Some (py "bar.pdf")) |}.
Proof.
  split; [|split].
  - intros Ho. destruct (has_occurrence_first Ho) as (pre & name & post & Hf).
    exists pre, name, post. rewrite (process_response_found Hf). simpl.
    repeat split; try apply Hf; try apply strip_spec.
    intros Hno. now rewrite (sub_plain Hno).
  - intros Hno. now rewrite (process_response_plain Hno).
  - vm_compute. reflexivity.
Qed.

Lemma process_response_directive_witness :
  (has_occurrence (py "Baik. [REQUEST_DOCUMENT:UU-1.pdf]") /\
   exists pre name post,
     first_occurrence (py "Baik. [REQUEST_DOCUMENT:UU-1.pdf]") pre name post /\
     document_request (process_response (py "Baik. [REQUEST_DOCUMENT:UU-1.pdf]"))
     = Some (Some (strip name))) /\
  (~ has_occurrence (py "plain answer, no tag") /\
   answer (process_response (py "plain answer, no tag"))
   = py "plain answer, no tag").
Proof.
  assert (H1 : has_occurrence (py "Baik. [REQUEST_DOCUMENT:UU-1.pdf]")).
  { exists (py "Baik. "), (py "UU-1.pdf"), [].
    split; [split; [discriminate|]|reflexivity].
    repeat constructor; discriminate. }
  assert (H2 : ~ has_occurrence (py "plain answer, no tag")).
  { apply search_None. vm_compute. reflexivity. }
  split; split; [exact H1 | | exact H2 |].
  - destruct (proj1 (process_response_directive _) H1)
      as (pre & name & post & Hf & Hd & _).
    exists pre, name, post. split; [exact Hf | exact Hd].
  - exact (proj1 (proj1 (proj2 (process_response_directive _)) H2)).
Defined.

(** C5. When the raw text holds two or more directives, the request is
    the name of the first one without the white space at its two ends,
    whatever the later ones name. *)
Theorem process_response_first_wins
    (raw pre1 name1 post1 pre2 name2 post2 : str) :
  first_occurrence raw pre1 name1 post1 ->
  occurrence raw pre2 name2 post2 ->
  length pre1 < length pre2 ->
  exists requested,
    document_request (process_response raw) = Some (Some requested) /\
    trim_of name1 requested /\
    requested = strip name1.
Proof.
  intros Hf _ _. exists (strip name1).
  rewrite (process_response_found Hf).
  split; [reflexivity | split; [apply strip_spec | reflexivity]].
Qed.

Lemma process_response_first_wins_witness :
  first_occurrence Sample.two_directives
    (py "Lihat ") (py " UU-1.pdf ") (py " atau [REQUEST_DOCUMENT:UU-2.pdf] ") /\
  occurrence Sample.two_directives
    (py "Lihat [REQUEST_DOCUMENT: UU-1.pdf ] atau ") (py "UU-2.pdf") (py " ") /\
  length (py "Lihat ") < length (py "Lihat [REQUEST_DOCUMENT: UU-1.pdf ] atau ") /\
  exists requested,
    document_request (process_response Sample.two_directives)
    = Some (Some requested) /\
    trim_of (py " UU-1.pdf ") requested.
Proof.
  assert (Hf : first_occurrence Sample.two_directives
                 (py "Lihat ") (py " UU-1.pdf ")
                 (py " atau [REQUEST_DOCUMENT:UU-2.pdf] ")).
  { apply (@search_Some Sample.two_directives
             (MkMatch (py "Lihat ") (py " UU-1.pdf ")
                      (py " atau [REQUEST_DOCUMENT:UU-2.pdf] "))).
    vm_compute. reflexivity. }
  assert (Ho : occurrence Sample.two_directives
                 (py "Lihat [REQUEST_DOCUMENT: UU-1.pdf ] atau ")
                 (py "UU-2.pdf") (py " ")).
  { split; [split; [discriminate|]|reflexivity].
    repeat constructor; discriminate. }
  assert (Hlt : length (py "Lihat ")
                < length (py "Lihat [REQUEST_DOCUMENT: UU-1.pdf ] atau "))
    by (vm_compute; lia).
  split; [exact Hf | split; [exact Ho | split; [exact Hlt|]]].
  destruct (process_response_first_wins Hf Ho Hlt) as (requested & Hr & Ht & _).
  exists requested. split; [exact Hr | exact Ht].
Defined.

(** C10. When the raw text holds a directive, the answer is the raw text
    with every directive met from left to right cut out (not only the
    first one) and the white space of both ends removed, while the
    request is the trimmed name of the first directive alone. *)
Theorem process_response_removes_all (raw : str) :
  has_occurrence raw ->
  exists pre name ds rest,
    removal raw ((pre, name) :: ds) rest /\
    answer (process_response raw) = strip (pre ++ concat (map fst ds) ++ rest) /\
    trim_of (pre ++ concat (map fst ds) ++ rest) (answer (process_response raw)) /\
    document_request (process_response raw) = Some (Some (strip name)).
Proof.
  intros Ho.
  destruct (has_occurrence_first Ho) as (pre & name & post & Hf).
  destruct (removal_total post) as (ds & rest & Hr).
  exists pre, name, ds, rest.
  assert (Hrem : removal raw ((pre, name) :: ds) rest)
    by (econstructor; eauto).
  rewrite (process_response_found Hf). simpl.
  rewrite (sub_removal Hr).
  split; [exact Hrem | split; [reflexivity | split; [apply strip_spec | reflexivity]]].
Qed.

Lemma process_response_removes_all_witness :
  has_occurrence Sample.two_directives /\
  exists pre name ds rest,
    removal Sample.two_directives ((pre, name) :: ds) rest /\
    answer (process_response Sample.two_directives)
    = strip (pre ++ concat (map fst ds) ++ rest).
Proof.
  assert (Ho : has_occurrence Sample.two_directives).
  { exists (py "Lihat "), (py " UU-1.pdf "),
      (py " atau [REQUEST_DOCUMENT:UU-2.pdf] ").
    split; [split; [discriminate|]|reflexivity].
    repeat constructor; discriminate. }
  split; [exact Ho|].
  destruct (process_response_removes_all Ho)
    as (pre & name & ds & rest & Hr & Ha & _).
  exists pre, name, ds, rest. split; [exact Hr | exact Ha].
Defined.

(** The sample with two directives: both are cut out of the answer. *)
Example process_response_two_directives :
  process_response Sample.two_directives =
  {| answer := py "Lihat  atau"; sources := None;
     document_request := Some (Some (py "UU-1.pdf")) |}.
Proof. vm_compute. reflexivity. Qed.

(* ===================================================================== *)
(** ** The context assembler ([_create_context]) *)
(* ===================================================================== *)

Lemma add_documents_blocks (docs : list doc) (i : nat) (context : str) :
  add_documents i docs context = context ++ document_blocks (S i) docs.
Proof.
  revert i context; induction docs as [|d docs IH]; intros i context;
    cbn [add_documents document_blocks].
  - now rewrite app_nil_r.
  - rewrite IH. unfold document_block.
    replace (Z.of_nat i + 1)%Z with (Z.of_nat (S i)) by lia.
    now rewrite <- !app_assoc.
Qed.

Lemma non_system_eq (msg : message) :
  non_system msg = negb (eqb (get (role msg) (py "unknown")) system).
Proof. reflexivity. Qed.

Lemma add_history_lines (msgs : list message) (context : str) :
  add_history msgs context = context ++ turn_lines (filter non_system msgs).
Proof.
  revert context; induction msgs as [|msg msgs IH]; intros context.
  - simpl. now rewrite app_nil_r.
  - cbn [add_history filter]. rewrite non_system_eq.
    destruct (eqb (get (role msg) (py "unknown")) system); cbn [negb].
    + apply IH.
    + rewrite IH. unfold turn_lines. cbn [map concat]. unfold turn_line.
      now rewrite <- !app_assoc.
Qed.

(** C6 (as the code has it). The context is the introduction, one labeled
    block per search result in ranked order, and, for a history of more
    than one turn, the heading of the conversation followed by the
    non-system turns found among the last min(5, length - 1) turns before
    the one being answered, each on a line labeled with its role. *)
Theorem create_context_window (results : list doc) (history : list message) :
  create_context results history = context_with turns_in_window results history.
Proof.
  unfold create_context, context_with, turns_in_window.
  rewrite add_documents_blocks.
  destruct (1 <? length history) eqn:Hlen.
  - apply Nat.ltb_lt in Hlen.
    rewrite (slice_recent history Hlen), add_history_lines.
    now rewrite <- !app_assoc.
  - now rewrite app_nil_r.
Qed.

(** C6 (as stated) fails where a system turn stands in the window: the
    context then shows fewer than min(5, length - 1) non-system turns. *)
Lemma create_context_not_last_non_system :
  create_context [Sample.chunk] Sample.long_history <>
  context_with turns_as_specified [Sample.chunk] Sample.long_history.
Proof.
  intros H. apply (f_equal (@length char)) in H.
  vm_compute in H. discriminate H.
Qed.

(* ===================================================================== *)
(** ** The orchestrator ([generate_response_with_chat]) *)
(* ===================================================================== *)

Section Orchestrator.

Variable self : RAGEngine.
Variable m : GenerativeModel.
Hypothesis Hmodel : model self = Some m.

Variables (query : str) (chat_history : list message) (num_results : Z).
Variable available_documents : option (list str).

Let turn_run : outcome response * list event :=
  run (generate_response_with_chat self query chat_history num_results
                                   available_documents).

(** [_generate_with_gemini] always returns a text, after one call. *)
Lemma generate_with_gemini_run (prompt : str) (t : list event) :
  generate_with_gemini self prompt t
  = (Ok (generated m prompt), t ++ [Generate prompt]).
Proof.
  unfold generate_with_gemini, try_except, backend_call, generated,
    backend_outcome.
  rewrite Hmodel. unfold bind, call.
  destruct (generate_content m prompt) as [r|e]; [|reflexivity].
  destruct (text_attr r) as [[s|e]|]; reflexivity.
Qed.

Lemma run_retrieval_raises (e : str) :
  similarity_search (vector_store self) query num_results = Raise e ->
  turn_run =
  (Ok {| answer := error_generating ++ e; sources := Some [];
         document_request := None |},
   [Search query num_results]).
Proof.
  intros Hs. unfold turn_run, run, generate_response_with_chat.
  rewrite Hmodel. unfold try_except, bind, call. rewrite Hs. reflexivity.
Qed.

Lemma run_nothing_found :
  similarity_search (vector_store self) query num_results = Ok [] ->
  truthy available_documents = false ->
  turn_run =
  (Ok {| answer := no_relevant_information; sources := Some [];
         document_request := None |},
   [Search query num_results]).
Proof.
  intros Hs Ht. unfold turn_run, run, generate_response_with_chat.
  rewrite Hmodel. unfold try_except, bind, call. rewrite Hs, Ht. reflexivity.
Qed.

Lemma run_fallback :
  similarity_search (vector_store self) query num_results = Ok [] ->
  truthy available_documents = true ->
  let prompt := fallback_prompt query (get available_documents []) in
  turn_run =
  (Ok (process_response (generated m prompt)),
   [Search query num_results; Generate prompt]).
Proof.
  intros Hs Ht prompt. unfold turn_run, run, generate_response_with_chat.
  rewrite Hmodel. unfold try_except, bind, call. rewrite Hs, Ht.
  unfold handle_no_relevant_docs, bind.
  rewrite generate_with_gemini_run. reflexivity.
Qed.

Lemma run_results (docs : list doc) :
  similarity_search (vector_store self) query num_results = Ok docs ->
  docs <> [] ->
  let prompt :=
    create_prompt query (create_context docs chat_history) chat_history
      available_documents (check_recent_document_requests chat_history) in
  let processed := process_response (generated m prompt) in
  turn_run =
  (Ok {| answer := answer processed; sources := Some docs;
         document_request := Some (get (document_request processed) None) |},
   [Search query num_results; Generate prompt]).
Proof.
  intros Hs Hne prompt processed.
  unfold turn_run, run, generate_response_with_chat.
  rewrite Hmodel. unfold try_except, bind, call. rewrite Hs.
  destruct docs as [|d docs]; [congruence|].
  rewrite generate_with_gemini_run. reflexivity.
Qed.

(** Whatever the collaborators do, the call returns a result. *)
Lemma turn_returns : exists r, fst turn_run = Ok r.
Proof.
  destruct (similarity_search (vector_store self) query num_results)
    as [docs|e] eqn:Hs.
  - destruct docs as [|d docs].
    + destruct (truthy available_documents) eqn:Ht.
      * rewrite (run_fallback Hs Ht). cbn [fst]. eauto.
      * rewrite (run_nothing_found Hs Ht). cbn [fst]. eauto.
    + rewrite (@run_results (d :: docs) Hs); [cbn [fst]; eauto | discriminate].
  - rewrite (run_retrieval_raises Hs). cbn [fst]. eauto.
Qed.

End Orchestrator.

Lemma match_here_other (c : char) (r : str) :
  c <> 91%N -> match_here (c :: r) = None.
Proof.
  intros Hc. unfold match_here.
  change doc_request_open with (91%N :: py "REQUEST_DOCUMENT:").
  cbn [startswith]. destruct (N.eqb_spec 91 c); [congruence|reflexivity].
Qed.

(** A beginning without opening bracket is left alone by [re.sub]. *)
Lemma sub_prefix (p s : str) :
  Forall (fun c => c <> 91%N) p -> sub (p ++ s) = p ++ sub s.
Proof.
  induction 1 as [|c p Hc _ IH]; [reflexivity|].
  change ((c :: p) ++ s) with (c :: p ++ s).
  rewrite (sub_eq (c :: p ++ s)), (match_here_other _ Hc).
  change ((c :: p) ++ sub s) with (c :: p ++ sub s). f_equal. exact IH.
Qed.

Lemma error_generating_no_bracket : Forall (fun c => c <> 91%N) error_generating.
Proof.
  apply Forall_forall. intros c Hin.
  assert (H : forallb (fun c => negb (c =? 91)%N) error_generating = true)
    by (vm_compute; reflexivity).
  rewrite forallb_forall in H. specialize (H c Hin).
  now apply negb_true_iff, N.eqb_neq in H.
Qed.

(** The answer made of a failure of the back end. *)
Lemma error_answer (e : str) :
  let a := answer (process_response (error_generating ++ e)) in
  a <> [] /\
  prefix (py "Error generating response:") a /\
  (~ has_occurrence (error_generating ++ e) -> a = error_generating ++ e).
Proof.
  intros a.
  assert (Hp : prefix (py "Error generating response:") a).
  { unfold a, process_response.
    destruct (search (error_generating ++ e)).
    - cbn [answer]. rewrite (sub_prefix _ error_generating_no_bracket).
      change (error_generating ++ sub e)
        with (69%N :: py "rror generating response" ++ 58%N :: 32%N :: sub e).
      apply strip_keeps; reflexivity.
    - cbn [answer]. exists (32%N :: e). reflexivity. }
  split; [|split]; [|exact Hp|].
  - destruct Hp as (post & ->). discriminate.
  - intros Hno. unfold a. now rewrite (process_response_plain Hno).
Qed.

Lemma backend_fails_generated (m : GenerativeModel) (prompt e : str) :
  backend_fails m prompt e -> generated m prompt = error_generating ++ e.
Proof. unfold backend_fails, generated. now intros ->. Qed.

(** C1 (what the code does). When the call reaches the back end and the
    back end fails, the call still returns a result, and its answer is a
    non-empty text that begins with "Error generating response:" (the
    whole error text when that text holds no directive); but the results
    that retrieval had found stay in the sources field, where the
    handler of the method itself (same message) returns none. *)
Theorem backend_failure_degrades
    (self : RAGEngine) (m : GenerativeModel) (query : str)
    (chat_history : list message) (num_results : Z)
    (available_documents : option (list str)) (prompt e : str) :
  model self = Some m ->
  In (Generate prompt)
     (snd (run (generate_response_with_chat self query chat_history
                  num_results available_documents))) ->
  backend_fails m prompt e ->
  exists r,
    fst (run (generate_response_with_chat self query chat_history
                num_results available_documents)) = Ok r /\
    answer r <> [] /\
    prefix (py "Error generating response:") (answer r) /\
    (~ has_occurrence (error_generating ++ e) ->
     answer r = error_generating ++ e) /\
    (forall docs,
       similarity_search (vector_store self) query num_results = Ok docs ->
       docs <> [] -> sources r = Some docs).
Proof.
  intros Hmodel Hin Hfail.
  destruct (error_answer e) as (Hne & Hpre & Hplain).
  destruct (similarity_search (vector_store self) query num_results)
    as [docs|e0] eqn:Hs.
  - destruct docs as [|d docs].
    + destruct (truthy available_documents) eqn:Ht.
      * rewrite (run_fallback _ Hmodel _ chat_history _ _ Hs Ht) in *. cbn [fst snd] in *.
        destruct Hin as [Hin|[Hin|[]]]; [discriminate|].
        inversion Hin; subst prompt; clear Hin.
        rewrite (backend_fails_generated Hfail).
        eexists; split; [reflexivity|].
        repeat split; auto. intros docs Hd. now inversion Hd.
      * rewrite (run_nothing_found _ Hmodel _ chat_history _ _ Hs Ht) in Hin. cbn [snd] in Hin.
        destruct Hin as [Hin|[]]. discriminate.
    + assert (Hd : d :: docs <> []) by discriminate.
      rewrite (run_results _ Hmodel _ chat_history _ available_documents Hs Hd) in *. cbn [fst snd] in *.
      destruct Hin as [Hin|[Hin|[]]]; [discriminate|].
      inversion Hin; subst prompt; clear Hin.
      rewrite (backend_fails_generated Hfail).
      eexists; split; [reflexivity|]. cbn [answer sources].
      repeat split; auto. intros docs' Hd'. now inversion Hd'.
  - rewrite (run_retrieval_raises _ Hmodel _ chat_history _ available_documents Hs) in Hin. cbn [snd] in Hin.
    destruct Hin as [Hin|[]]. discriminate.
Qed.

Lemma backend_failure_degrades_witness :
  model (Sample.engine [Sample.chunk] (Some Sample.failing))
  = Some Sample.failing /\
  (exists prompt,
     In (Generate prompt)
        (snd (run (generate_response_with_chat
                     (Sample.engine [Sample.chunk] (Some Sample.failing))
                     Sample.question [Sample.turn (py "user") Sample.question]
                     3 (Some Sample.catalog)))) /\
     backend_fails Sample.failing prompt (py "429 quota exceeded")) /\
  exists r,
    fst (run (generate_response_with_chat
                (Sample.engine [Sample.chunk] (Some Sample.failing))
                Sample.question [Sample.turn (py "user") Sample.question]
                3 (Some Sample.catalog))) = Ok r /\
    answer r <> [] /\
    sources r = Some [Sample.chunk].
Proof.
  split; [reflexivity|].
  set (h := [Sample.turn (py "user") Sample.question]).
  set (p := create_prompt Sample.question
              (create_context [Sample.chunk] h) h (Some Sample.catalog)
              (check_recent_document_requests h)).
  assert (Hin : In (Generate p)
                  (snd (run (generate_response_with_chat
                               (Sample.engine [Sample.chunk] (Some Sample.failing))
                               Sample.question h 3 (Some Sample.catalog))))).
  { right; left. reflexivity. }
  assert (Hf : backend_fails Sample.failing p (py "429 quota exceeded"))
    by reflexivity.
  split; [exists p; split; [exact Hin | exact Hf]|].
  destruct (@backend_failure_degrades
              (Sample.engine [Sample.chunk] (Some Sample.failing))
              Sample.failing Sample.question h 3 (Some Sample.catalog)
              p (py "429 quota exceeded") eq_refl Hin Hf)
    as (r & Hr & Hne & _ & _ & Hsrc).
  exists r. split; [exact Hr | split; [exact Hne|]].
  apply Hsrc; [reflexivity | discriminate].
Defined.

(** The failing input of C1: retrieval had found a chunk and the back
    end raises; the failure text comes back with that chunk as sources,
    not with an empty sequence. *)
Lemma backend_failure_keeps_sources :
  exists prompt,
    In (Generate prompt)
       (snd (run (generate_response_with_chat
                    (Sample.engine [Sample.chunk] (Some Sample.failing))
                    Sample.question [Sample.turn (py "user") Sample.question]
                    3 (Some Sample.catalog)))) /\
    backend_fails Sample.failing prompt (py "429 quota exceeded") /\
    ~ exists r,
        fst (run (generate_response_with_chat
                    (Sample.engine [Sample.chunk] (Some Sample.failing))
                    Sample.question [Sample.turn (py "user") Sample.question]
                    3 (Some Sample.catalog))) = Ok r /\
        sources r = Some [] /\
        answer r <> [].
Proof.
  eexists. split; [right; left; reflexivity|]. split; [reflexivity|].
  intros (r & Hr & Hsrc & _).
  vm_compute in Hr. inversion Hr; subst r. discriminate Hsrc.
Qed.

(** C2. When retrieval returns nothing and the catalog is absent or
    empty, the call returns the fixed no-information answer with empty
    sources, and the only call made is the similarity search: the back
    end is never invoked. *)
Theorem nothing_found_without_catalog
    (self : RAGEngine) (m : GenerativeModel) (query : str)
    (chat_history : list message) (num_results : Z)
    (available_documents : option (list str)) :
  model self = Some m ->
  similarity_search (vector_store self) query num_results = Ok [] ->
  available_documents = None \/ available_documents = Some [] ->
  run (generate_response_with_chat self query chat_history num_results
                                   available_documents)
  = (Ok {| answer := no_relevant_information; sources := Some [];
           document_request := None |},
     [Search query num_results]) /\
  forall prompt,
    ~ In (Generate prompt)
         (snd (run (generate_response_with_chat self query chat_history
                      num_results available_documents))).
Proof.
  intros Hmodel Hs Hcat.
  assert (Ht : truthy available_documents = false)
    by (destruct Hcat as [-> | ->]; reflexivity).
  rewrite (run_nothing_found _ Hmodel _ chat_history _ _ Hs Ht).
  split; [reflexivity|].
  intros prompt [Hin|[]]. discriminate.
Qed.

Lemma nothing_found_without_catalog_witness :
  model (Sample.engine [] (Some Sample.failing)) = Some Sample.failing /\
  similarity_search (vector_store (Sample.engine [] (Some Sample.failing)))
    Sample.question 3 = Ok [] /\
  ((Some [] : option (list str)) = None \/ Some [] = Some ([] : list str)) /\
  run (generate_response_with_chat (Sample.engine [] (Some Sample.failing))
         Sample.question Sample.long_history 3 (Some []))
  = (Ok {| answer := no_relevant_information; sources := Some [];
           document_request := None |},
     [Search Sample.question 3]).
Proof.
  split; [reflexivity | split; [reflexivity | split; [right; reflexivity|]]].
  exact (proj1 (@nothing_found_without_catalog
                  (Sample.engine [] (Some Sample.failing)) Sample.failing
                  Sample.question Sample.long_history 3 (Some [])
                  eq_refl eq_refl (or_intror eq_refl))).
Defined.

Lemma fallback_prompt_lists_catalog (query : str) (names : list str) (name : str) :
  In name names -> substring name (fallback_prompt query names).
Proof.
  intros Hin. unfold fallback_prompt.
  do 3 apply substring_app_r. apply substring_app_l.
  now apply join_substring.
Qed.

(** C3 (what the code does). With nothing retrieved and a non-empty
    catalog, the fallback prompt names every document of the catalog, is
    the one text sent to the back end, and the parsed reply is returned as
    it is: a dict that has no sources key at all, where the docstring of
    [generate_response_with_chat] and its other returns give a sources
    field. *)
Theorem fallback_omits_sources
    (self : RAGEngine) (m : GenerativeModel) (query : str)
    (chat_history : list message) (num_results : Z) (names : list str) :
  model self = Some m ->
  similarity_search (vector_store self) query num_results = Ok [] ->
  names <> [] ->
  (forall name, In name names -> substring name (fallback_prompt query names)) /\
  exists r,
    run (generate_response_with_chat self query chat_history num_results
                                     (Some names))
    = (Ok r, [Search query num_results; Generate (fallback_prompt query names)]) /\
    r = process_response (generated m (fallback_prompt query names)) /\
    sources r = None /\
    sources r <> Some [].
Proof.
  intros Hmodel Hs Hne.
  split; [intros name; apply fallback_prompt_lists_catalog|].
  assert (Ht : truthy (Some names) = true) by (destruct names; [congruence | reflexivity]).
  rewrite (run_fallback _ Hmodel _ chat_history _ _ Hs Ht). cbn [get].
  eexists; split; [reflexivity|]. split; [reflexivity|].
  assert (Hsrc : forall raw, sources (process_response raw) = None).
  { intros raw. unfold process_response. now destruct (search raw). }
  rewrite Hsrc. split; [reflexivity | discriminate].
Qed.

Lemma fallback_omits_sources_witness :
  model (Sample.engine []
           (Some (Sample.replying (py "Tidak ada. [REQUEST_DOCUMENT:UU-1.pdf]"))))
  = Some (Sample.replying (py "Tidak ada. [REQUEST_DOCUMENT:UU-1.pdf]")) /\
  similarity_search
    (vector_store
       (Sample.engine []
          (Some (Sample.replying (py "Tidak ada. [REQUEST_DOCUMENT:UU-1.pdf]")))))
    Sample.question 3 = Ok [] /\
  Sample.catalog <> [] /\
  exists r,
    run (generate_response_with_chat
           (Sample.engine []
              (Some (Sample.replying (py "Tidak ada. [REQUEST_DOCUMENT:UU-1.pdf]"))))
           Sample.question [Sample.turn (py "user") Sample.question] 3
           (Some Sample.catalog))
    = (Ok r, [Search Sample.question 3;
              Generate (fallback_prompt Sample.question Sample.catalog)]) /\
    sources r = None.
Proof.
  assert (Hc : Sample.catalog <> []) by discriminate.
  split; [reflexivity | split; [reflexivity | split; [exact Hc|]]].
  destruct (proj2 (@fallback_omits_sources
                     (Sample.engine []
                        (Some (Sample.replying
                                 (py "Tidak ada. [REQUEST_DOCUMENT:UU-1.pdf]"))))
                     (Sample.replying (py "Tidak ada. [REQUEST_DOCUMENT:UU-1.pdf]"))
                     Sample.question [Sample.turn (py "user") Sample.question]
                     3 Sample.catalog eq_refl eq_refl Hc))
    as (r & Hr & _ & Hsrc & _).
  exists r. split; [exact Hr | exact Hsrc].
Defined.

(** The test of the specification: the reply names "UU-1.pdf", the
    request is exactly that name, and both names of the catalog are in
    the prompt. *)
Example fallback_requests_named_document :
  run (generate_response_with_chat
         (Sample.engine []
            (Some (Sample.replying (py "Tidak ada. [REQUEST_DOCUMENT:UU-1.pdf]"))))
         Sample.question [Sample.turn (py "user") Sample.question] 3
         (Some Sample.catalog))
  = (Ok {| answer := py "Tidak ada."; sources := None;
           document_request := Some (Some (py "UU-1.pdf")) |},
     [Search Sample.question 3;
      Generate (fallback_prompt Sample.question Sample.catalog)]).
Proof. vm_compute. reflexivity. Qed.

(** C9. With an engine whose Gemini client was not initialised, the call
    returns the fixed API-key error with empty sources and makes no call
    at all: neither retrieval nor back end. *)
Theorem model_not_initialized
    (self : RAGEngine) (query : str) (chat_history : list message)
    (num_results : Z) (available_documents : option (list str)) :
  model self = None ->
  run (generate_response_with_chat self query chat_history num_results
                                   available_documents)
  = (Ok {| answer := not_initialized; sources := Some [];
           document_request := None |},
     []).
Proof.
  intros Hmodel. unfold run, generate_response_with_chat.
  now rewrite Hmodel.
Qed.

(** [__init__] leaves the model unset when either call to the library
    raises. *)
Lemma init_failure (g : genai) (vs : VectorStore) (key e : str) :
  configure g key = Raise e \/
  GenerativeModel_new g (py "gemini-2.0-flash-thinking-exp-01-21") = Raise e ->
  model (init g vs key) = None.
Proof.
  unfold init. cbn [model].
  intros [-> | ->]; [reflexivity|]. now destruct (configure g key).
Qed.

Lemma model_not_initialized_witness :
  model (init Sample.genai_rejecting (Sample.store_of [Sample.chunk]) (py "bad"))
  = None /\
  run (generate_response_with_chat
         (init Sample.genai_rejecting (Sample.store_of [Sample.chunk]) (py "bad"))
         Sample.question Sample.long_history 3 (Some Sample.catalog))
  = (Ok {| answer := not_initialized; sources := Some [];
           document_request := None |},
     []).
Proof.
  split; [reflexivity|].
  exact (@model_not_initialized
           (init Sample.genai_rejecting (Sample.store_of [Sample.chunk]) (py "bad"))
           Sample.question Sample.long_history 3 (Some Sample.catalog) eq_refl).
Defined.

(** C8. The legacy entry point is the chat entry point on the history
    made of the single user turn that carries the query, without
    catalog: same result, same calls. *)
Theorem generate_response_single_turn
    (self : RAGEngine) (query : str) (num_results : Z) :
  generate_response self query num_results
  = generate_response_with_chat self query
      [ {| role := Some (py "user"); content := Some query; msg_id := None;
           visible := None; msg_sources := None |} ]
      num_results None.
Proof. reflexivity. Qed.

(* ===================================================================== *)
(** ** Document requests across turns *)
(* ===================================================================== *)

Lemma collect_requests_extends (msgs : list message) (acc : list str) :
  exists more, collect_requests msgs acc = acc ++ more.
Proof.
  revert acc; induction msgs as [|msg msgs IH]; intros acc; cbn [collect_requests].
  - exists []. now rewrite app_nil_r.
  - destruct (is_request_note msg).
    + destruct (3 <=? length (acc ++ [get (content msg) []])).
      * now exists [get (content msg) []].
      * destruct (IH (acc ++ [get (content msg) []])) as (more & ->).
        exists (get (content msg) [] :: more). now rewrite <- app_assoc.
    + apply IH.
Qed.

(** Fewer than three notes met so far: the scan goes on past them. *)
Lemma collect_requests_skip (later rest : list message) (acc : list str) :
  length acc + length (filter is_request_note later) < 3 ->
  collect_requests (later ++ rest) acc =
  collect_requests rest
    (acc ++ map (fun msg => get (content msg) []) (filter is_request_note later)).
Proof.
  revert acc; induction later as [|msg later IH]; intros acc Hlen.
  - cbn. now rewrite app_nil_r.
  - cbn [app collect_requests filter] in *.
    destruct (is_request_note msg); cbn [length map] in *.
    + assert (Hacc : length (acc ++ [get (content msg) []]) = length acc + 1)
        by (rewrite length_app; reflexivity).
      destruct (Nat.leb_spec 3 (length (acc ++ [get (content msg) []])));
        [lia|].
      rewrite IH by lia. now rewrite <- app_assoc.
    + now apply IH.
Qed.

Lemma is_request_note_system (note : message) (c : str) :
  role note = Some system -> content note = Some c ->
  substring permintaan_dokumen c ->
  is_request_note note = true.
Proof.
  intros Hr Hc Hsub. unfold is_request_note. rewrite Hr, Hc. cbn [get].
  apply andb_true_iff. split; [now apply eqb_spec | now apply contains_spec].
Qed.

(** A note followed by fewer than three other notes is among the
    requests collected. *)
Lemma recent_requests_include (history later : list message)
    (note : message) (c : str) :
  role note = Some system -> content note = Some c ->
  substring permintaan_dokumen c ->
  length (filter is_request_note later) < 3 ->
  In c (check_recent_document_requests (history ++ note :: later)).
Proof.
  intros Hr Hc Hsub Hlen.
  pose proof (is_request_note_system _ Hr Hc Hsub) as Hnote.
  unfold check_recent_document_requests.
  rewrite rev_app_distr. cbn [rev]. rewrite <- app_assoc.
  rewrite collect_requests_skip
    by (rewrite filter_rev, length_rev; cbn [length]; lia).
  cbn [app collect_requests]. rewrite Hnote, Hc. cbn [get].
  set (acc := map (fun msg => get (content msg) [])
                  (filter is_request_note (rev later))).
  destruct (3 <=? length (acc ++ [c])).
  - apply in_or_app. right. now left.
  - destruct (collect_requests_extends (rev history) (acc ++ [c])) as (more & ->).
    apply in_or_app. left. apply in_or_app. right. now left.
Qed.

Lemma create_prompt_requests (query context : str) (chat_history : list message)
    (available_documents : option (list str)) (requests : list str) :
  requests <> [] ->
  exists pre post,
    create_prompt query context chat_history available_documents requests
    = pre ++ prompt_requests_head ++ join (py " ") requests
          ++ prompt_requests_tail ++ post.
Proof.
  intros Hne. unfold create_prompt.
  destruct requests as [|r requests]; [congruence|].
  cbn [length Nat.ltb Nat.leb]. cbv zeta.
  match goal with
  | |- exists pre post, (?x ++ _) ++ _ = _ =>
      exists x, (prompt_question ++ query ++ prompt_answer); generalize x
  end.
  intros x. rewrite <- !app_assoc. reflexivity.
Qed.

(** The shared step of the round trip: the prompt of a turn that found
    results holds the note in its segment of earlier document requests. *)
Lemma request_note_in_prompt
    (self : RAGEngine) (m : GenerativeModel) (query : str)
    (history later : list message) (note : message) (c : str)
    (num_results : Z) (available_documents : option (list str))
    (docs : list doc) :
  model self = Some m ->
  similarity_search (vector_store self) query num_results = Ok docs ->
  docs <> [] ->
  role note = Some system -> content note = Some c ->
  substring permintaan_dokumen c ->
  length (filter is_request_note later) < 3 ->
  exists prompt pre before after post,
    snd (run (generate_response_with_chat self query (history ++ note :: later)
                num_results available_documents))
    = [Search query num_results; Generate prompt] /\
    prompt = pre ++ prompt_requests_head ++ (before ++ c ++ after)
                 ++ prompt_requests_tail ++ post /\
    before ++ c ++ after
    = join (py " ")
        (check_recent_document_requests (history ++ note :: later)).
Proof.
  intros Hmodel Hs Hne Hr Hc Hsub Hlen.
  pose proof (recent_requests_include history later note Hr Hc Hsub Hlen) as Hin.
  rewrite (run_results _ Hmodel _ (history ++ note :: later) _
             available_documents Hs Hne). cbn [snd].
  set (reqs := check_recent_document_requests (history ++ note :: later)) in *.
  assert (Hreqs : reqs <> []) by (intros E; rewrite E in Hin; contradiction).
  destruct (create_prompt_requests query
              (create_context docs (history ++ note :: later))
              (history ++ note :: later) available_documents Hreqs)
    as (pre & post & Hp).
  destruct (join_substring (py " ") reqs c Hin) as (before & after & Hj).
  eexists; exists pre, before, after, post.
  split; [reflexivity|]. split; [|now symmetry].
  now rewrite <- Hj.
Qed.





Lemma snd_bind_ret {A B : Type} (c : M A) (f : A -> B) (t : list event) :
  snd (bind c (fun x => ret (f x)) t) = snd (c t).
Proof. unfold bind, ret. now destruct (c t) as [[a|e] t']. Qed.

(** A text that is not empty passes the guard of the chat input. *)
Lemma user_input_typed (engine : RAGEngine) (num_results : Z) (text : str)
    (st : App.session_state) :
  text <> [] ->
  App.user_input engine num_results (Some text) st
  = App.answer_question engine num_results text st.
Proof. destruct text; [congruence | reflexivity]. Qed.

(** The round trip through the session of app.py: the user approves the
    pending request, then types a (non-empty) question for which
    retrieval finds results; the prompt of that turn holds the
    approval. *)
Lemma setuju_then_question
    (engine : RAGEngine) (m : GenerativeModel) (st : App.session_state)
    (name query : str) (num_results : Z) (docs : list doc) :
  query <> [] ->
  App.pending st = Some name ->
  model engine = Some m ->
  similarity_search (vector_store engine) query num_results = Ok docs ->
  docs <> [] ->
  exists prompt,
    snd (run (App.user_input engine num_results (Some query) (App.setuju st)))
    = [Search query num_results; Generate prompt] /\
    substring (py "User menyetujui permintaan dokumen: " ++ name) prompt.
Proof.
  intros Hq Hp Hmodel Hs Hne. rewrite (user_input_typed _ _ _ Hq).
  unfold App.setuju, App.resolution. rewrite Hp.
  unfold App.answer_question, run. cbn [App.chat_history App.available_documents].
  rewrite snd_bind_ret, <- app_assoc. cbn [app].
  set (note := {| role := Some system;
                  content := Some (py "User menyetujui permintaan dokumen: " ++ name);
                  msg_id := Some (length (App.chat_history st));
                  visible := Some false; msg_sources := None |}).
  match goal with
  | |- context [note :: ?l] =>
      assert (Hl : length (filter is_request_note l) < 3)
        by (cbn [filter]; destruct (is_request_note _); cbn [length]; lia);
      destruct (@request_note_in_prompt engine m query (App.chat_history st) l
                  note (py "User menyetujui permintaan dokumen: " ++ name)
                  num_results (Some (App.available_documents st)) docs
                  Hmodel Hs Hne eq_refl eq_refl
                  (substring_app_l _
                     (proj1 (contains_spec permintaan_dokumen
                               (py "User menyetujui permintaan dokumen: "))
                            eq_refl))
                  Hl)
        as (prompt & pre & before & after & post & Ht & Hprompt & _)
  end.
  exists prompt. split; [exact Ht|].
  rewrite Hprompt. apply substring_app_r, substring_app_r, substring_app_l.
  apply substring_refl_app.
Qed.

(* ===================================================================== *)
(** ** More on the request notes ([_check_recent_document_requests]) *)
(* ===================================================================== *)

Lemma collect_requests_firstn (msgs : list message) (acc : list str) :
  length acc < 3 ->
  collect_requests msgs acc =
  acc ++ firstn (3 - length acc) (map note_text (filter is_request_note msgs)).
Proof.
  unfold note_text.
  revert acc; induction msgs as [|msg msgs IH]; intros acc Hacc;
    cbn [collect_requests filter].
  - cbn [map]. now rewrite firstn_nil, app_nil_r.
  - destruct (is_request_note msg).
    + assert (Hlen : length (acc ++ [get (content msg) []]) = S (length acc))
        by (rewrite length_app; cbn [length]; lia).
      cbn [map]. replace (3 - length acc) with (S (2 - length acc)) by lia.
      cbn [firstn]. rewrite Hlen.
      destruct (Nat.leb_spec 3 (S (length acc))) as [H|H].
      * replace (2 - length acc) with 0 by lia. reflexivity.
      * rewrite IH by lia. rewrite Hlen, <- app_assoc.
        replace (3 - S (length acc)) with (2 - length acc) by lia.
        reflexivity.
    + now apply IH.
Qed.

(** X1. The requests collected are the contents of the three most recent
    request notes of the history, the newest first; never more than
    three. *)
Theorem recent_requests_newest_three (chat_history : list message) :
  check_recent_document_requests chat_history =
  firstn 3 (map note_text (filter is_request_note (rev chat_history))) /\
  length (check_recent_document_requests chat_history) <= 3.
Proof.
  assert (E : check_recent_document_requests chat_history =
              firstn 3 (map note_text
                          (filter is_request_note (rev chat_history)))).
  { unfold check_recent_document_requests.
    rewrite collect_requests_firstn by (cbn; lia). reflexivity. }
  split; [exact E|]. rewrite E. apply firstn_le_length.
Qed.

Lemma in_firstn {A : Type} (n : nat) (l : list A) (x : A) :
  In x (firstn n l) -> In x l.
Proof.
  intros H. rewrite <- (firstn_skipn n l). apply in_or_app. now left.
Qed.

Lemma is_request_note_inv (msg : message) :
  is_request_note msg = true ->
  role msg = Some system /\
  content msg = Some (note_text msg) /\
  substring permintaan_dokumen (note_text msg).
Proof.
  unfold is_request_note, note_text.
  destruct (role msg) as [r|]; [|discriminate].
  rewrite andb_true_iff, eqb_spec. intros [-> Hc].
  destruct (content msg) as [c|]; cbn [get] in *.
  - split; [reflexivity | split; [reflexivity | now apply contains_spec]].
  - vm_compute in Hc. discriminate Hc.
Qed.

(** X2. Whatever is collected is the content of a system turn of the
    history that holds the phrase "permintaan dokumen": turns of other
    roles are never taken, whatever they say. *)
Theorem recent_requests_from_system_notes
    (chat_history : list message) (c : str) :
  In c (check_recent_document_requests chat_history) ->
  exists msg,
    In msg chat_history /\ role msg = Some system /\
    content msg = Some c /\ substring permintaan_dokumen c.
Proof.
  unfold check_recent_document_requests.
  rewrite collect_requests_firstn by (cbn; lia). cbn [app].
  intros Hin. apply in_firstn, in_map_iff in Hin.
  destruct Hin as (msg & <- & Hmsg). apply filter_In in Hmsg.
  destruct Hmsg as [Hmsg Hnote]. apply in_rev in Hmsg.
  destruct (is_request_note_inv msg Hnote) as (Hr & Hc & Hs).
  now exists msg.
Qed.

Lemma recent_requests_from_system_notes_witness :
  In Sample.approval (check_recent_document_requests Sample.long_history) /\
  exists msg,
    In msg Sample.long_history /\ role msg = Some system /\
    content msg = Some Sample.approval.
Proof.
  assert (Hin : In Sample.approval
                  (check_recent_document_requests Sample.long_history))
    by (left; reflexivity).
  split; [exact Hin|].
  destruct (@recent_requests_from_system_notes Sample.long_history
              Sample.approval Hin) as (msg & H1 & H2 & H3 & _).
  exists msg. split; [exact H1 | split; [exact H2 | exact H3]].
Defined.

(* ===================================================================== *)
(** ** More on the response parser ([_process_response]) *)
(* ===================================================================== *)

Lemma search_cons_other (c : char) (s : str) :
  c <> 91%N ->
  search (c :: s) =
  match search s with
  | Some m => Some (MkMatch (c :: before m) (group1 m) (after m))
  | None => None
  end.
Proof. intros Hc. now rewrite search_eq, (match_here_other _ Hc). Qed.

(** A beginning without opening bracket only shifts what [re.search]
    finds. *)
Lemma search_prefix (p s : str) :
  Forall (fun c => c <> 91%N) p ->
  search (p ++ s) =
  match search s with
  | Some m => Some (MkMatch (p ++ before m) (group1 m) (after m))
  | None => None
  end.
Proof.
  intros Hp. induction p as [|c p IH].
  - cbn [app]. destruct (search s) as [[b g a]|]; reflexivity.
  - inversion Hp as [|c' p' Hc Hp']; subst.
    change ((c :: p) ++ s) with (c :: p ++ s).
    rewrite (search_cons_other _ Hc), (IH Hp').
    destruct (search s); reflexivity.
Qed.

Lemma strip_sublist (s : str) : exists l r, s = l ++ strip s ++ r.
Proof.
  destruct (strip_spec s) as (_ & l & r & H & _). now exists l, r.
Qed.

Lemma strip_whitespace (s : str) : whitespace s -> strip s = [].
Proof.
  intros Hw. unfold strip, lstrip, rstrip.
  assert (E : dropwhile isspace s = []).
  { induction Hw as [|c s Hc _ IH]; [reflexivity|].
    cbn [dropwhile]. now rewrite Hc. }
  now rewrite E.
Qed.

(** X3. A request comes only from a directive of the raw text, and the
    name requested is clean: no white space at either end and no closing
    bracket inside; the key is never bound to [None]. *)
Theorem process_response_request_clean (raw d : str) :
  document_request (process_response raw) = Some (Some d) ->
  has_occurrence raw /\ trimmed d /\ Forall (fun c => c <> rbracket) d.
Proof.
  unfold process_response.
  destruct (search raw) as [m|] eqn:Hs; cbn [document_request];
    [|discriminate].
  intros H; inversion H; subst d; clear H.
  destruct (@search_Some raw m Hs) as [[[_ Hall] Hraw] _].
  split; [|split].
  - exists (before m), (group1 m), (after m).
    now destruct (@search_Some raw m Hs).
  - apply strip_spec.
  - destruct (strip_sublist (group1 m)) as (l & r & E).
    rewrite E in Hall.
    apply Forall_app in Hall. destruct Hall as [_ Hall].
    apply Forall_app in Hall. now destruct Hall.
Qed.

Lemma process_response_request_clean_witness :
  document_request (process_response Sample.two_directives)
  = Some (Some (py "UU-1.pdf")) /\
  has_occurrence Sample.two_directives /\ trimmed (py "UU-1.pdf").
Proof.
  assert (H : document_request (process_response Sample.two_directives)
              = Some (Some (py "UU-1.pdf"))) by (vm_compute; reflexivity).
  split; [exact H|].
  destruct (@process_response_request_clean Sample.two_directives
              (py "UU-1.pdf") H) as (H1 & H2 & _).
  split; [exact H1 | exact H2].
Defined.

Lemma occurrence_has_rbracket (text pre name post : str) :
  occurrence text pre name post -> In rbracket text.
Proof.
  intros [_ ->]. unfold directive.
  apply in_or_app. right. apply in_or_app. left.
  apply in_or_app. right. apply in_or_app. right. now left.
Qed.

(** X4. A reply without any closing bracket passes through unchanged and
    asks for nothing: a tag that the model leaves open stays in the
    answer shown. *)
Theorem process_response_unclosed (raw : str) :
  Forall (fun c => c <> rbracket) raw ->
  process_response raw =
  {| answer := raw; sources := None; document_request := None |}.
Proof.
  intros Hall. apply process_response_plain.
  intros (pre & name & post & Ho).
  apply occurrence_has_rbracket in Ho.
  rewrite Forall_forall in Hall. now apply (Hall rbracket).
Qed.

Lemma process_response_unclosed_witness :
  Forall (fun c => c <> rbracket) (py "Lihat [REQUEST_DOCUMENT:UU-1.pdf") /\
  answer (process_response (py "Lihat [REQUEST_DOCUMENT:UU-1.pdf"))
  = py "Lihat [REQUEST_DOCUMENT:UU-1.pdf".
Proof.
  assert (H : Forall (fun c => c <> rbracket)
                (py "Lihat [REQUEST_DOCUMENT:UU-1.pdf"))
    by (repeat constructor; discriminate).
  split; [exact H|].
  exact (f_equal answer (@process_response_unclosed _ H)).
Defined.

Lemma search_empty_name (post : str) :
  search (py "[REQUEST_DOCUMENT:]" ++ post) =
  match search post with
  | Some m =>
      Some (MkMatch (py "[REQUEST_DOCUMENT:]" ++ before m) (group1 m) (after m))
  | None => None
  end.
Proof.
  assert (Hm : match_here (py "[REQUEST_DOCUMENT:]" ++ post) = None).
  { unfold match_here.
    change (py "[REQUEST_DOCUMENT:]" ++ post)
      with (doc_request_open ++ rbracket :: post).
    rewrite startswith_refl. reflexivity. }
  assert (Hp : Forall (fun c => c <> 91%N) (py "REQUEST_DOCUMENT:]"))
    by (repeat constructor; discriminate).
  rewrite search_eq, Hm.
  change (py "[REQUEST_DOCUMENT:]" ++ post)
    with (91%N :: py "REQUEST_DOCUMENT:]" ++ post).
  cbv iota. rewrite (search_prefix post Hp).
  destruct (search post) as [[b g a]|]; reflexivity.
Qed.

(** X5. A tag with nothing between the colon and the bracket is not a
    directive: when the text holds no other directive, it is returned
    with the tag still in it, and nothing is requested. *)
Theorem process_response_empty_name (pre post : str) :
  Forall (fun c => c <> 91%N) pre ->
  ~ has_occurrence post ->
  process_response (pre ++ py "[REQUEST_DOCUMENT:]" ++ post) =
  {| answer := pre ++ py "[REQUEST_DOCUMENT:]" ++ post;
     sources := None; document_request := None |}.
Proof.
  intros Hpre Hpost. apply process_response_plain.
  intros (p & n & q & Ho).
  destruct (has_occurrence_first (ex_intro _ p (ex_intro _ n (ex_intro _ q Ho))))
    as (p' & n' & q' & Hf).
  apply first_occurrence_search in Hf.
  rewrite (search_prefix _ Hpre), search_empty_name in Hf.
  destruct (search post) as [m|] eqn:Hs; [|discriminate].
  apply Hpost. destruct (@search_Some post m Hs) as [Hm _].
  now exists (before m), (group1 m), (after m).
Qed.

Lemma process_response_empty_name_witness :
  Forall (fun c => c <> 91%N) (py "Baik. ") /\
  ~ has_occurrence (py " selesai") /\
  answer (process_response (py "Baik. " ++ py "[REQUEST_DOCUMENT:]" ++ py " selesai"))
  = py "Baik. " ++ py "[REQUEST_DOCUMENT:]" ++ py " selesai".
Proof.
  assert (H1 : Forall (fun c => c <> 91%N) (py "Baik. "))
    by (repeat constructor; discriminate).
  assert (H2 : ~ has_occurrence (py " selesai"))
    by (apply search_None; vm_compute; reflexivity).
  split; [exact H1 | split; [exact H2|]].
  exact (f_equal answer (@process_response_empty_name _ _ H1 H2)).
Defined.

(** X6. A directive whose name is only white space is cut out of the
    answer like any other, and the request it leaves is the empty text. *)
Theorem process_response_blank_name (raw pre name post : str) :
  first_occurrence raw pre name post ->
  whitespace name ->
  process_response raw =
  {| answer := strip (pre ++ sub post); sources := None;
     document_request := Some (Some []) |}.
Proof.
  intros Hf Hw. rewrite (process_response_found Hf).
  now rewrite (strip_whitespace Hw).
Qed.

Lemma process_response_blank_name_witness :
  first_occurrence (py "Baik. [REQUEST_DOCUMENT:  ]") (py "Baik. ") (py "  ") [] /\
  whitespace (py "  ") /\
  process_response (py "Baik. [REQUEST_DOCUMENT:  ]") =
  {| answer := strip (py "Baik. " ++ sub []); sources := None;
     document_request := Some (Some []) |}.
Proof.
  assert (Hf : first_occurrence (py "Baik. [REQUEST_DOCUMENT:  ]")
                 (py "Baik. ") (py "  ") []).
  { apply (@search_Some (py "Baik. [REQUEST_DOCUMENT:  ]")
             (MkMatch (py "Baik. ") (py "  ") [])).
    vm_compute. reflexivity. }
  assert (Hw : whitespace (py "  ")) by (repeat constructor).
  split; [exact Hf | split; [exact Hw|]].
  exact (process_response_blank_name Hf Hw).
Defined.

(* ===================================================================== *)
(** ** More on the prompt builder and the context *)
(* ===================================================================== *)

Lemma substring_refl (t : str) : substring t t.
Proof. exists [], []. now rewrite app_nil_r. Qed.

Lemma substring_here (t post : str) : substring t (t ++ post).
Proof. now exists [], post. Qed.

(** X7. Whatever the arguments, the prompt opens with the role
    instruction, closes with the question and the answer cue, and holds
    the context and the question as given (nothing is escaped); every
    name of a non-empty catalog and every request passed are in it. *)
Theorem create_prompt_contents (query context : str)
    (chat_history : list message) (available_documents : option (list str))
    (requests : list str) :
  let prompt :=
    create_prompt query context chat_history available_documents requests in
  prefix (prompt_role ++ context ++ prompt_rules) prompt /\
  (exists pre, prompt = pre ++ prompt_question ++ query ++ prompt_answer) /\
  (forall name names,
     available_documents = Some names -> In name names ->
     substring name prompt) /\
  (forall r, In r requests -> substring r prompt).
Proof.
  intros prompt. subst prompt. unfold create_prompt. cbv zeta.
  set (base := prompt_role ++ context ++ prompt_rules).
  set (tail := prompt_question ++ query ++ prompt_answer).
  set (cat := prompt_catalog_head
              ++ join (py ", ") (get available_documents [])
              ++ prompt_catalog_tail).
  set (req := prompt_requests_head ++ join (py " ") requests
              ++ prompt_requests_tail).
  assert (Hcat : forall name names,
             available_documents = Some names -> In name names ->
             truthy available_documents = true /\ substring name cat).
  { intros name names -> Hin. split; [now destruct names|].
    unfold cat. cbn [get]. apply substring_app_r, substring_app_l.
    now apply join_substring. }
  assert (Hreq : forall r, In r requests ->
             (0 <? length requests) = true /\ substring r req).
  { intros r Hin. split; [destruct requests; [contradiction|reflexivity]|].
    unfold req. apply substring_app_r, substring_app_l.
    now apply join_substring. }
  destruct (truthy available_documents) eqn:Ht;
    destruct (0 <? length requests) eqn:Hl; fold cat; fold req.
  - split; [|split; [|split]].
    + exists (cat ++ req ++ tail). now rewrite <- !app_assoc.
    + exists ((base ++ cat) ++ req). now rewrite <- !app_assoc.
    + intros name names E Hin. destruct (Hcat name names E Hin) as [_ Hs].
      apply substring_app_l, substring_app_l, substring_app_r. exact Hs.
    + intros r Hin. destruct (Hreq r Hin) as [_ Hs].
      apply substring_app_l, substring_app_r. exact Hs.
  - split; [|split; [|split]].
    + exists (cat ++ tail). now rewrite <- !app_assoc.
    + now exists (base ++ cat).
    + intros name names E Hin. destruct (Hcat name names E Hin) as [_ Hs].
      apply substring_app_l, substring_app_r. exact Hs.
    + intros r Hin. destruct (Hreq r Hin) as [Hf _]. congruence.
  - split; [|split; [|split]].
    + exists (req ++ tail). now rewrite <- !app_assoc.
    + now exists (base ++ req).
    + intros name names E Hin. destruct (Hcat name names E Hin) as [Hf _].
      congruence.
    + intros r Hin. destruct (Hreq r Hin) as [_ Hs].
      apply substring_app_l, substring_app_r. exact Hs.
  - split; [|split; [|split]].
    + now exists tail.
    + now exists base.
    + intros name names E Hin. destruct (Hcat name names E Hin) as [Hf _].
      congruence.
    + intros r Hin. destruct (Hreq r Hin) as [Hf _]. congruence.
Qed.

Lemma document_blocks_text (docs : list doc) (i : nat) (d : doc) :
  In d docs ->
  substring (text d) (document_blocks i docs) /\
  substring (basename (source d)) (document_blocks i docs).
Proof.
  revert i; induction docs as [|d0 docs IH]; intros i; [contradiction|].
  intros [->|Hin]; cbn [document_blocks].
  - split; apply substring_app_l; unfold document_block.
    + do 10 apply substring_app_r. apply substring_here.
    + do 3 apply substring_app_r. apply substring_here.
  - destruct (IH (S i) Hin). split; now apply substring_app_r.
Qed.

Lemma create_context_blocks (docs : list doc) (chat_history : list message) :
  exists rest,
    create_context docs chat_history
    = context_intro ++ document_blocks 1 docs ++ rest.
Proof.
  unfold create_context. rewrite add_documents_blocks.
  destruct (1 <? length chat_history).
  - rewrite add_history_lines. eexists. now rewrite <- !app_assoc.
  - exists []. now rewrite app_nil_r.
Qed.

(* ===================================================================== *)
(** ** More on the orchestrator *)
(* ===================================================================== *)

(** X8. When retrieval finds results, the prompt sent to the back end
    holds the question, and for every retrieved chunk its text and the
    file name of its source. *)
Theorem prompt_carries_chunks
    (self : RAGEngine) (m : GenerativeModel) (query : str)
    (chat_history : list message) (num_results : Z)
    (available_documents : option (list str)) (docs : list doc) :
  model self = Some m ->
  similarity_search (vector_store self) query num_results = Ok docs ->
  docs <> [] ->
  exists prompt,
    snd (run (generate_response_with_chat self query chat_history num_results
                available_documents))
    = [Search query num_results; Generate prompt] /\
    substring query prompt /\
    forall d, In d docs ->
      substring (text d) prompt /\ substring (basename (source d)) prompt.
Proof.
  intros Hmodel Hs Hne.
  rewrite (run_results _ Hmodel _ chat_history _ available_documents Hs Hne).
  cbn [snd]. eexists. split; [reflexivity|].
  unfold create_prompt. cbv zeta.
  destruct (create_context_blocks docs chat_history) as (rest & ->).
  split.
  - apply substring_app_r, substring_app_r. apply substring_here.
  - intros d Hin. destruct (document_blocks_text docs 1 d Hin) as [Ht Hb].
    remember (prompt_role
              ++ (context_intro ++ document_blocks 1 docs ++ rest)
              ++ prompt_rules) as base eqn:Hbase.
    assert (Hctx : forall t, substring t (document_blocks 1 docs) ->
              substring t base).
    { intros t H. rewrite Hbase.
      apply substring_app_r, substring_app_l, substring_app_r.
      now apply substring_app_l. }
    split; apply substring_app_l;
      destruct (truthy available_documents);
      destruct (0 <? length (check_recent_document_requests chat_history));
      repeat apply substring_app_l; now apply Hctx.
Qed.

Lemma prompt_carries_chunks_witness :
  model (Sample.engine [Sample.chunk] (Some (Sample.replying (py "Baik."))))
  = Some (Sample.replying (py "Baik.")) /\
  similarity_search
    (vector_store
       (Sample.engine [Sample.chunk] (Some (Sample.replying (py "Baik.")))))
    Sample.question 3 = Ok [Sample.chunk] /\
  [Sample.chunk] <> [] /\
  exists prompt,
    snd (run (generate_response_with_chat
                (Sample.engine [Sample.chunk] (Some (Sample.replying (py "Baik."))))
                Sample.question Sample.long_history 3 (Some Sample.catalog)))
    = [Search Sample.question 3; Generate prompt] /\
    substring (py "Pasal 1") prompt.
Proof.
  assert (Hd : [Sample.chunk] <> []) by discriminate.
  split; [reflexivity | split; [reflexivity | split; [exact Hd|]]].
  destruct (@prompt_carries_chunks
              (Sample.engine [Sample.chunk] (Some (Sample.replying (py "Baik."))))
              (Sample.replying (py "Baik.")) Sample.question
              Sample.long_history 3 (Some Sample.catalog) [Sample.chunk]
              eq_refl eq_refl Hd) as (prompt & Ht & _ & Hc).
  exists prompt. split; [exact Ht|].
  exact (proj1 (Hc Sample.chunk (or_introl eq_refl))).
Defined.

(** X9. One call of the engine makes no call at all (model not
    initialised), or one similarity search, or one similarity search
    followed by one call of the back end: never two generations, never a
    generation before the search, and the search is made with the query
    and the number of results as given. *)
Theorem calls_of_a_turn
    (self : RAGEngine) (query : str) (chat_history : list message)
    (num_results : Z) (available_documents : option (list str)) :
  let calls :=
    snd (run (generate_response_with_chat self query chat_history num_results
                available_documents)) in
  (model self = None /\ calls = []) \/
  (model self <> None /\
   (calls = [Search query num_results] \/
    exists prompt, calls = [Search query num_results; Generate prompt])).
Proof.
  intros calls. subst calls.
  destruct (model self) as [m|] eqn:Hmodel.
  - right. split; [discriminate|].
    destruct (similarity_search (vector_store self) query num_results)
      as [docs|e] eqn:Hs.
    + destruct docs as [|d docs].
      * destruct (truthy available_documents) eqn:Ht.
        -- rewrite (run_fallback _ Hmodel _ chat_history _ _ Hs Ht).
           right. eexists. reflexivity.
        -- rewrite (run_nothing_found _ Hmodel _ chat_history _ _ Hs Ht).
           now left.
      * assert (Hd : d :: docs <> []) by discriminate.
        rewrite (run_results _ Hmodel _ chat_history _ available_documents Hs Hd).
        right. eexists. reflexivity.
    + rewrite (run_retrieval_raises _ Hmodel _ chat_history _
                 available_documents Hs).
      now left.
  - left. split; [reflexivity|].
    unfold run, generate_response_with_chat. now rewrite Hmodel.
Qed.

(** X10. When the similarity search raises, the call returns the text
    "Error generating response: " followed by the message of the
    exception, with empty sources, and the back end is not called. *)
Theorem retrieval_failure_degrades
    (self : RAGEngine) (m : GenerativeModel) (query : str)
    (chat_history : list message) (num_results : Z)
    (available_documents : option (list str)) (e : str) :
  model self = Some m ->
  similarity_search (vector_store self) query num_results = Raise e ->
  run (generate_response_with_chat self query chat_history num_results
         available_documents)
  = (Ok {| answer := py "Error generating response: " ++ e;
           sources := Some []; document_request := None |},
     [Search query num_results]).
Proof.
  intros Hmodel Hs.
  exact (run_retrieval_raises _ Hmodel _ chat_history _ available_documents Hs).
Qed.

Lemma retrieval_failure_degrades_witness :
  model Sample2.broken_engine = Some Sample.failing /\
  similarity_search (vector_store Sample2.broken_engine) Sample.question 3
  = Raise (py "embedding failed") /\
  run (generate_response_with_chat Sample2.broken_engine Sample.question
         Sample.long_history 3 (Some Sample.catalog))
  = (Ok {| answer := py "Error generating response: " ++ py "embedding failed";
           sources := Some []; document_request := None |},
     [Search Sample.question 3]).
Proof.
  split; [reflexivity | split; [reflexivity|]].
  exact (@retrieval_failure_degrades Sample2.broken_engine Sample.failing
           Sample.question Sample.long_history 3 (Some Sample.catalog)
           (py "embedding failed") eq_refl eq_refl).
Defined.

Lemma chat_returns
    (self : RAGEngine) (query : str) (chat_history : list message)
    (num_results : Z) (available_documents : option (list str)) :
  exists r,
    fst (run (generate_response_with_chat self query chat_history num_results
                available_documents)) = Ok r.
Proof.
  destruct (model self) as [m|] eqn:Hmodel.
  - exact (turn_returns _ Hmodel query chat_history num_results
             available_documents).
  - unfold run, generate_response_with_chat. rewrite Hmodel.
    eexists. reflexivity.
Qed.

(** X11. No entry point lets an exception out: whatever the vector
    store and the back end do (return, raise, return a response without
    text) and whether or not the model was initialised, the chat entry
    point, the legacy entry point and a run of the chat input (with a
    text typed, with the empty text, or with nothing submitted) all
    return a value. *)
Theorem entry_points_never_raise
    (self : RAGEngine) (query : str) (chat_history : list message)
    (num_results : Z) (available_documents : option (list str))
    (typed : option str) (st : App.session_state) :
  (exists r,
     fst (run (generate_response_with_chat self query chat_history
                 num_results available_documents)) = Ok r) /\
  (exists r, fst (run (generate_response self query num_results)) = Ok r) /\
  (exists st',
     fst (run (App.user_input self num_results typed st)) = Ok st').
Proof.
  split; [apply chat_returns | split; [apply chat_returns|]].
  destruct typed as [[|c text]|];
    [eexists; reflexivity | | eexists; reflexivity].
  cbn [App.user_input]. unfold App.answer_question, run, bind.
  destruct (chat_returns self (c :: text)
              (App.chat_history st ++
               [ {| role := Some (py "user"); content := Some (c :: text);
                    msg_id := Some (length (App.chat_history st));
                    visible := None; msg_sources := None |} ])
              num_results (Some (App.available_documents st))) as (r & Hr).
  unfold run in Hr.
  destruct (generate_response_with_chat _ _ _ _ _ []) as [[r'|e] t];
    cbn [fst] in Hr; [|discriminate].
  eexists. reflexivity.
Qed.

(** X12. When retrieval finds results and the reply of the back end
    holds no directive, the reply is the answer exactly as received
    (not trimmed), the sources are the retrieved chunks in the order
    retrieved, and the document_request key is bound to [None]. *)
Theorem plain_reply_returned_verbatim
    (self : RAGEngine) (m : GenerativeModel) (query : str)
    (chat_history : list message) (num_results : Z)
    (available_documents : option (list str)) (docs : list doc) :
  model self = Some m ->
  similarity_search (vector_store self) query num_results = Ok docs ->
  docs <> [] ->
  ~ has_occurrence
      (generated m
         (create_prompt query (create_context docs chat_history) chat_history
            available_documents
            (check_recent_document_requests chat_history))) ->
  fst (run (generate_response_with_chat self query chat_history num_results
              available_documents))
  = Ok {| answer :=
            generated m
              (create_prompt query (create_context docs chat_history)
                 chat_history available_documents
                 (check_recent_document_requests chat_history));
          sources := Some docs;
          document_request := Some None |}.
Proof.
  intros Hmodel Hs Hne Hplain.
  rewrite (run_results _ Hmodel _ chat_history _ available_documents Hs Hne).
  cbn [fst]. now rewrite (process_response_plain Hplain).
Qed.

Lemma plain_reply_returned_verbatim_witness :
  fst (run (generate_response_with_chat
              (Sample.engine [Sample.chunk] (Some (Sample.replying (py " Baik. "))))
              Sample.question Sample.long_history 3 (Some Sample.catalog)))
  = Ok {| answer := py " Baik. "; sources := Some [Sample.chunk];
          document_request := Some None |}.
Proof.
  assert (Hd : [Sample.chunk] <> []) by discriminate.
  assert (Hp : ~ has_occurrence (py " Baik. "))
    by (apply search_None; vm_compute; reflexivity).
  exact (@plain_reply_returned_verbatim
           (Sample.engine [Sample.chunk] (Some (Sample.replying (py " Baik. "))))
           (Sample.replying (py " Baik. ")) Sample.question
           Sample.long_history 3 (Some Sample.catalog) [Sample.chunk]
           eq_refl eq_refl Hd Hp).
Defined.

(** X13. The text made of a failure of the back end goes through the
    parser like a reply: when the message of the exception quotes a
    directive, the result asks for the document named there. *)
Theorem failure_text_is_parsed
    (self : RAGEngine) (m : GenerativeModel) (query : str)
    (chat_history : list message) (num_results : Z)
    (available_documents : option (list str)) (docs : list doc)
    (e pre name post : str) :
  model self = Some m ->
  similarity_search (vector_store self) query num_results = Ok docs ->
  docs <> [] ->
  backend_fails m
    (create_prompt query (create_context docs chat_history) chat_history
       available_documents (check_recent_document_requests chat_history)) e ->
  first_occurrence e pre name post ->
  exists r,
    fst (run (generate_response_with_chat self query chat_history num_results
                available_documents)) = Ok r /\
    document_request r = Some (Some (strip name)) /\
    sources r = Some docs.
Proof.
  intros Hmodel Hs Hne Hfail Hf.
  rewrite (run_results _ Hmodel _ chat_history _ available_documents Hs Hne).
  cbn [fst]. eexists. split; [reflexivity|]. cbn [document_request sources].
  split; [|reflexivity].
  rewrite (backend_fails_generated Hfail).
  unfold process_response.
  rewrite (search_prefix e error_generating_no_bracket).
  rewrite (@first_occurrence_search _ _ _ _ Hf). reflexivity.
Qed.

Lemma failure_text_is_parsed_witness :
  exists r,
    fst (run (generate_response_with_chat
                (Sample.engine [Sample.chunk] (Some Sample2.echoing))
                Sample.question Sample.long_history 3 (Some Sample.catalog)))
    = Ok r /\
    document_request r = Some (Some (strip (py " UU-2.pdf "))).
Proof.
  assert (Hd : [Sample.chunk] <> []) by discriminate.
  assert (Hf : first_occurrence
                 (py "blocked: [REQUEST_DOCUMENT: UU-2.pdf ] not allowed")
                 (py "blocked: ") (py " UU-2.pdf ") (py " not allowed")).
  { apply (@search_Some
             (py "blocked: [REQUEST_DOCUMENT: UU-2.pdf ] not allowed")
             (MkMatch (py "blocked: ") (py " UU-2.pdf ") (py " not allowed"))).
    vm_compute. reflexivity. }
  destruct (@failure_text_is_parsed
              (Sample.engine [Sample.chunk] (Some Sample2.echoing))
              Sample2.echoing Sample.question Sample.long_history 3
              (Some Sample.catalog) [Sample.chunk]
              (py "blocked: [REQUEST_DOCUMENT: UU-2.pdf ] not allowed")
              (py "blocked: ") (py " UU-2.pdf ") (py " not allowed")
              eq_refl eq_refl Hd eq_refl Hf) as (r & Hr & Hq & _).
  exists r. split; [exact Hr | exact Hq].
Defined.

(** X14. Through the legacy entry point, a query for which retrieval
    finds results is sent in a prompt made of the role instruction, the
    blocks of the chunks, the rules and the question only: no
    conversation history, no catalog and no earlier requests. *)
Theorem legacy_prompt
    (self : RAGEngine) (m : GenerativeModel) (query : str)
    (num_results : Z) (docs : list doc) :
  model self = Some m ->
  similarity_search (vector_store self) query num_results = Ok docs ->
  docs <> [] ->
  snd (run (generate_response self query num_results))
  = [Search query num_results;
     Generate (prompt_role ++ context_intro ++ document_blocks 1 docs
               ++ prompt_rules ++ prompt_question ++ query ++ prompt_answer)].
Proof.
  intros Hmodel Hs Hne. unfold generate_response.
  rewrite (run_results _ Hmodel _ _ _ None Hs Hne). cbn [snd].
  do 2 f_equal. f_equal.
  unfold create_prompt, create_context. cbv zeta.
  rewrite add_documents_blocks.
  cbn [truthy length Nat.ltb Nat.leb].
  assert (E : check_recent_document_requests
                [ {| role := Some (py "user"); content := Some query;
                     msg_id := None; visible := None; msg_sources := None |} ]
              = []) by reflexivity.
  rewrite E. cbn [length Nat.ltb Nat.leb].
  now rewrite <- !app_assoc.
Qed.

Lemma legacy_prompt_witness :
  snd (run (generate_response
              (Sample.engine [Sample.chunk] (Some (Sample.replying (py "Baik."))))
              Sample.question 3))
  = [Search Sample.question 3;
     Generate (prompt_role ++ context_intro
               ++ document_blocks 1 [Sample.chunk]
               ++ prompt_rules ++ prompt_question ++ Sample.question
               ++ prompt_answer)].
Proof.
  assert (Hd : [Sample.chunk] <> []) by discriminate.
  exact (@legacy_prompt
           (Sample.engine [Sample.chunk] (Some (Sample.replying (py "Baik."))))
           (Sample.replying (py "Baik.")) Sample.question 3 [Sample.chunk]
           eq_refl eq_refl Hd).
Defined.

(* ===================================================================== *)
(** ** The session of app.py: buttons, questions, display *)
(* ===================================================================== *)

Lemma positions_ok_snoc (history : list message) (msg : message) :
  positions_ok history -> msg_id msg = Some (length history) ->
  positions_ok (history ++ [msg]).
Proof.
  intros Hok Hid i msg' Hn.
  destruct (Nat.lt_ge_cases i (length history)) as [Hlt|Hge].
  - rewrite nth_error_app1 in Hn by exact Hlt. now apply Hok.
  - rewrite nth_error_app2 in Hn by exact Hge.
    destruct (i - length history) as [|j] eqn:Hj.
    + cbn in Hn. inversion Hn; subst msg'. rewrite Hid. f_equal. lia.
    + cbn in Hn. destruct j; discriminate Hn.
Qed.

Lemma resolution_positions (wording : str) (st : App.session_state) :
  positions_ok (App.chat_history st) ->
  positions_ok (App.chat_history (App.resolution wording st)).
Proof.
  intros Hok. unfold App.resolution.
  destruct (App.pending st); [|exact Hok].
  cbn [App.chat_history]. now apply positions_ok_snoc.
Qed.

(** What the block under the guard leaves: the history extended by the
    question and by the answer of the engine. *)
Lemma answer_question_run (engine : RAGEngine) (num_results : Z) (text : str)
    (st : App.session_state) :
  exists r,
    run (generate_response_with_chat engine text
           (App.chat_history st ++ [user_turn text (length (App.chat_history st))])
           num_results (Some (App.available_documents st)))
    = (Ok r,
       snd (run (generate_response_with_chat engine text
                   (App.chat_history st
                    ++ [user_turn text (length (App.chat_history st))])
                   num_results (Some (App.available_documents st))))) /\
    run (App.answer_question engine num_results text st)
    = (Ok {| App.chat_history :=
               (App.chat_history st
                ++ [user_turn text (length (App.chat_history st))])
               ++ [ {| role := Some (py "assistant");
                       content := Some (answer r);
                       msg_id :=
                         Some (length
                                 (App.chat_history st
                                  ++ [user_turn text
                                        (length (App.chat_history st))]));
                       visible := None;
                       msg_sources := Some (get (sources r) []) |} ];
             App.pending_doc_request :=
               match document_request r with
               | Some (Some (c :: x)) => Some (c :: x)
               | _ => App.pending_doc_request st
               end;
             App.available_documents := App.available_documents st |},
       snd (run (generate_response_with_chat engine text
                   (App.chat_history st
                    ++ [user_turn text (length (App.chat_history st))])
                   num_results (Some (App.available_documents st))))).
Proof.
  destruct (chat_returns engine text
              (App.chat_history st
               ++ [user_turn text (length (App.chat_history st))])
              num_results (Some (App.available_documents st))) as (r & Hr).
  exists r. unfold App.answer_question, run, bind in *.
  fold (user_turn text (length (App.chat_history st))).
  destruct (generate_response_with_chat _ _ _ _ _ []) as [[r'|e] t];
    cbn [fst snd] in *; [|discriminate].
  inversion Hr; subst r'. split; reflexivity.
Qed.

(** X15. The handlers keep the numbering of the history: when every
    message carries its position as id, this still holds after the
    "Setuju" button, after the "Tolak" button, and after a run of the
    chat input, whether a question was typed and answered or nothing
    was submitted. *)
Theorem handlers_keep_positions (engine : RAGEngine) (num_results : Z)
    (typed : option str) (st : App.session_state) :
  positions_ok (App.chat_history st) ->
  positions_ok (App.chat_history (App.setuju st)) /\
  positions_ok (App.chat_history (App.tolak st)) /\
  exists st',
    fst (run (App.user_input engine num_results typed st)) = Ok st' /\
    positions_ok (App.chat_history st').
Proof.
  intros Hok.
  split; [now apply resolution_positions|].
  split; [now apply resolution_positions|].
  destruct typed as [[|c text]|];
    [exists st; split; [reflexivity | exact Hok] |
     | exists st; split; [reflexivity | exact Hok]].
  cbn [App.user_input].
  destruct (answer_question_run engine num_results (c :: text) st)
    as (r & _ & ->).
  cbn [fst]. eexists. split; [reflexivity|]. cbn [App.chat_history].
  apply positions_ok_snoc; [|reflexivity].
  now apply positions_ok_snoc.
Qed.

Lemma handlers_keep_positions_witness :
  positions_ok (App.chat_history Sample2.waiting) /\
  positions_ok (App.chat_history (App.setuju Sample2.waiting)) /\
  exists st',
    fst (run (App.user_input
                (Sample.engine [Sample.chunk] (Some Sample.failing))
                3 (Some Sample.question) Sample2.waiting)) = Ok st' /\
    positions_ok (App.chat_history st').
Proof.
  assert (Hok : positions_ok (App.chat_history Sample2.waiting)).
  { intros i msg Hn. destruct i as [|[|i]]; cbn in Hn.
    - now inversion Hn.
    - now inversion Hn.
    - destruct i; discriminate Hn. }
  split; [exact Hok|].
  destruct (@handlers_keep_positions
              (Sample.engine [Sample.chunk] (Some Sample.failing))
              3 (Some Sample.question) Sample2.waiting Hok) as (H1 & _ & H3).
  split; [exact H1 | exact H3].
Defined.

(** X16. A run of the chat input with a non-empty text adds exactly two
    turns after the history it found, which is kept as it was: the user
    turn with the text typed, then the assistant turn whose content is
    the answer the engine returned for the history that ends with that
    user turn and whose sources are those of the result (none when the
    result has no sources key); the catalog is unchanged and the calls
    made are those of that one call of the engine.  With the empty text,
    or nothing submitted, the session is left as it is and no call is
    made. *)
Theorem user_input_records_exchange (engine : RAGEngine) (num_results : Z)
    (text : str) (st : App.session_state) :
  (text <> [] ->
   exists st' r,
     fst (run (App.user_input engine num_results (Some text) st)) = Ok st' /\
     fst (run (generate_response_with_chat engine text
                 (App.chat_history st
                  ++ [user_turn text (length (App.chat_history st))])
                 num_results (Some (App.available_documents st)))) = Ok r /\
     App.chat_history st' =
       App.chat_history st
       ++ [ user_turn text (length (App.chat_history st));
            {| role := Some (py "assistant"); content := Some (answer r);
               msg_id := Some (S (length (App.chat_history st)));
               visible := None;
               msg_sources := Some (get (sources r) []) |} ] /\
     App.available_documents st' = App.available_documents st /\
     snd (run (App.user_input engine num_results (Some text) st))
     = snd (run (generate_response_with_chat engine text
                   (App.chat_history st
                    ++ [user_turn text (length (App.chat_history st))])
                   num_results (Some (App.available_documents st))))) /\
  run (App.user_input engine num_results (Some []) st) = (Ok st, []) /\
  run (App.user_input engine num_results None st) = (Ok st, []).
Proof.
  split; [|split; reflexivity].
  intros Htext. rewrite (user_input_typed _ _ _ Htext).
  destruct (answer_question_run engine num_results text st) as (r & Hr & Hu).
  rewrite Hu, Hr. cbn [fst snd].
  eexists; exists r. split; [reflexivity|]. split; [reflexivity|].
  cbn [App.chat_history App.available_documents].
  split; [|split; reflexivity].
  rewrite <- app_assoc. cbn [app]. do 4 f_equal.
  rewrite length_app. cbn [length]. f_equal. lia.
Qed.

Lemma user_input_records_exchange_witness :
  Sample.question <> [] /\
  exists st' r,
    fst (run (App.user_input
                (Sample.engine [Sample.chunk] (Some (Sample.replying (py "Baik."))))
                3 (Some Sample.question) Sample2.waiting)) = Ok st' /\
    App.chat_history st' =
      App.chat_history Sample2.waiting
      ++ [ user_turn Sample.question 2;
           {| role := Some (py "assistant"); content := Some (answer r);
              msg_id := Some 3; visible := None;
              msg_sources := Some (get (sources r) []) |} ].
Proof.
  assert (Hq : Sample.question <> []) by discriminate.
  split; [exact Hq|].
  destruct (proj1 (@user_input_records_exchange
                     (Sample.engine [Sample.chunk]
                        (Some (Sample.replying (py "Baik."))))
                     3 Sample.question Sample2.waiting) Hq)
    as (st' & r & H1 & _ & H3 & _).
  exists st', r. split; [exact H1 | exact H3].
Defined.

Lemma show_history_hidden (history : list message) (msg : message) :
  show_message msg = ([], Ok tt) ->
  show_history (history ++ [msg]) = show_history history.
Proof.
  intros Hm. induction history as [|a history IH]; cbn [app show_history].
  - rewrite Hm. reflexivity.
  - destruct (show_message a) as [shown [[]|e]]; [|reflexivity].
    now rewrite IH.
Qed.

Lemma show_system_turn (c : str) (n : nat) :
  show_message (system_turn c n) = ([], Ok tt).
Proof. reflexivity. Qed.

(** X17. The note a button leaves is hidden: after "Setuju" or "Tolak"
    the display loop writes exactly the widgets it wrote before (and
    stops on the same error if it stopped on one). *)
Theorem buttons_leave_display (st : App.session_state) :
  show_history (App.chat_history (App.setuju st))
  = show_history (App.chat_history st) /\
  show_history (App.chat_history (App.tolak st))
  = show_history (App.chat_history st).
Proof.
  unfold App.setuju, App.tolak, App.resolution.
  destruct (App.pending st) as [name|]; [|split; reflexivity].
  cbn [App.chat_history].
  split; apply show_history_hidden; apply show_system_turn.
Qed.

(** The step shared by the two buttons: the note they leave reaches the
    prompt of the next question when retrieval finds results. *)
Lemma resolution_then_question
    (wording : str) (engine : RAGEngine) (m : GenerativeModel)
    (st : App.session_state) (name query : str) (num_results : Z)
    (docs : list doc) :
  substring permintaan_dokumen wording ->
  query <> [] ->
  App.pending st = Some name ->
  model engine = Some m ->
  similarity_search (vector_store engine) query num_results = Ok docs ->
  docs <> [] ->
  exists prompt,
    snd (run (App.user_input engine num_results (Some query)
                (App.resolution wording st)))
    = [Search query num_results; Generate prompt] /\
    substring (wording ++ name) prompt.
Proof.
  intros Hw Hq Hp Hmodel Hs Hne. rewrite (user_input_typed _ _ _ Hq).
  unfold App.resolution. rewrite Hp.
  unfold App.answer_question, run.
  cbn [App.chat_history App.available_documents].
  rewrite snd_bind_ret, <- app_assoc. cbn [app].
  set (note := {| role := Some system; content := Some (wording ++ name);
                  msg_id := Some (length (App.chat_history st));
                  visible := Some false; msg_sources := None |}).
  match goal with
  | |- context [note :: ?l] =>
      assert (Hl : length (filter is_request_note l) < 3)
        by (cbn [filter]; destruct (is_request_note _); cbn [length]; lia);
      destruct (@request_note_in_prompt engine m query (App.chat_history st) l
                  note (wording ++ name)
                  num_results (Some (App.available_documents st)) docs
                  Hmodel Hs Hne eq_refl eq_refl
                  (substring_app_l _ Hw) Hl)
        as (prompt & pre & before & after & post & Ht & Hprompt & _)
  end.
  exists prompt. split; [exact Ht|].
  rewrite Hprompt. apply substring_app_r, substring_app_r, substring_app_l.
  apply substring_refl_app.
Qed.

(** X18. A rejection is carried to the model like an approval: after
    "Tolak" on a pending request, the prompt of the next question typed
    (a non-empty text) for which retrieval finds results holds "User
    menolak permintaan dokumen: " followed by the name that was
    pending. *)
Theorem tolak_then_question
    (engine : RAGEngine) (m : GenerativeModel) (st : App.session_state)
    (name query : str) (num_results : Z) (docs : list doc) :
  query <> [] ->
  App.pending st = Some name ->
  model engine = Some m ->
  similarity_search (vector_store engine) query num_results = Ok docs ->
  docs <> [] ->
  exists prompt,
    snd (run (App.user_input engine num_results (Some query) (App.tolak st)))
    = [Search query num_results; Generate prompt] /\
    substring (py "User menolak permintaan dokumen: " ++ name) prompt.
Proof.
  intros Hq Hp Hmodel Hs Hne.
  apply (@resolution_then_question (py "User menolak permintaan dokumen: ")
           engine m st name query num_results docs); auto.
  apply contains_spec. vm_compute. reflexivity.
Qed.

Lemma tolak_then_question_witness :
  Sample.question <> [] /\
  App.pending Sample2.waiting = Some (py "UU-2.pdf") /\
  exists prompt,
    snd (run (App.user_input
                (Sample.engine [Sample.chunk] (Some (Sample.replying (py "Baik."))))
                3 (Some Sample.question) (App.tolak Sample2.waiting)))
    = [Search Sample.question 3; Generate prompt] /\
    substring (py "User menolak permintaan dokumen: " ++ py "UU-2.pdf") prompt.
Proof.
  assert (Hd : [Sample.chunk] <> []) by discriminate.
  assert (Hq : Sample.question <> []) by discriminate.
  split; [exact Hq | split; [reflexivity|]].
  exact (@tolak_then_question
           (Sample.engine [Sample.chunk] (Some (Sample.replying (py "Baik."))))
           (Sample.replying (py "Baik.")) Sample2.waiting (py "UU-2.pdf")
           Sample.question 3 [Sample.chunk] Hq eq_refl eq_refl eq_refl Hd).
Defined.

(** X19. How a reply moves the pending request, when retrieval finds
    results for the question typed (a non-empty text): a reply whose first directive names
    a document (a name that is not only white space) makes that trimmed
    name the pending request, replacing any older one; a reply without
    directive leaves the pending request as it was. *)
Theorem reply_sets_pending
    (engine : RAGEngine) (m : GenerativeModel) (st : App.session_state)
    (text : str) (num_results : Z) (docs : list doc) :
  text <> [] ->
  model engine = Some m ->
  similarity_search (vector_store engine) text num_results = Ok docs ->
  docs <> [] ->
  exists st' prompt,
    run (App.user_input engine num_results (Some text) st)
    = (Ok st', [Search text num_results; Generate prompt]) /\
    (forall pre name post,
       first_occurrence (generated m prompt) pre name post ->
       strip name <> [] ->
       App.pending_doc_request st' = Some (strip name)) /\
    (~ has_occurrence (generated m prompt) ->
     App.pending_doc_request st' = App.pending_doc_request st).
Proof.
  intros Htext Hmodel Hs Hne. rewrite (user_input_typed _ _ _ Htext).
  destruct (answer_question_run engine num_results text st) as (r & Hr & ->).
  rewrite (run_results _ Hmodel _
             (App.chat_history st
              ++ [user_turn text (length (App.chat_history st))])
             _ (Some (App.available_documents st)) Hs Hne) in *.
  cbn [snd] in *. inversion Hr as [Hr']. clear Hr.
  eexists; eexists. split; [reflexivity|].
  cbn [App.pending_doc_request document_request].
  split.
  - intros pre name post Hf Hn.
    rewrite (process_response_found Hf). cbn [document_request get].
    destruct (strip name); [congruence | reflexivity].
  - intros Hplain. now rewrite (process_response_plain Hplain).
Qed.

Lemma reply_sets_pending_witness :
  exists st' prompt,
    run (App.user_input
           (Sample.engine [Sample.chunk]
              (Some (Sample.replying Sample.two_directives)))
           3 (Some Sample.question) Sample2.waiting)
    = (Ok st', [Search Sample.question 3; Generate prompt]) /\
    App.pending_doc_request st' = Some (strip (py " UU-1.pdf ")).
Proof.
  assert (Hd : [Sample.chunk] <> []) by discriminate.
  assert (Hq : Sample.question <> []) by discriminate.
  destruct (@reply_sets_pending
              (Sample.engine [Sample.chunk]
                 (Some (Sample.replying Sample.two_directives)))
              (Sample.replying Sample.two_directives) Sample2.waiting
              Sample.question 3 [Sample.chunk] Hq eq_refl eq_refl Hd)
    as (st' & prompt & Hrun & Hset & _).
  exists st', prompt. split; [exact Hrun|].
  apply (Hset (py "Lihat ") (py " UU-1.pdf ")
              (py " atau [REQUEST_DOCUMENT:UU-2.pdf] ")).
  - apply (@search_Some Sample.two_directives
             (MkMatch (py "Lihat ") (py " UU-1.pdf ")
                      (py " atau [REQUEST_DOCUMENT:UU-2.pdf] "))).
    vm_compute. reflexivity.
  - vm_compute. discriminate.
Defined.

(** X20. Construction never fails: when [genai.configure] or the
    creation of the model raises, the engine is built all the same, and
    every later call returns the API-key error with empty sources
    without calling the vector store or the back end. *)
Theorem failed_init_gives_key_error
    (g : genai) (vs : VectorStore) (key e query : str)
    (chat_history : list message) (num_results : Z)
    (available_documents : option (list str)) :
  configure g key = Raise e \/
  GenerativeModel_new g (py "gemini-2.0-flash-thinking-exp-01-21") = Raise e ->
  run (generate_response_with_chat (init g vs key) query chat_history
         num_results available_documents)
  = (Ok {| answer :=
             py "Error: Gemini API model not initialized. Please check your API key.";
           sources := Some []; document_request := None |},
     []).
Proof.
  intros Hfail. unfold run, generate_response_with_chat.
  now rewrite (init_failure g vs key Hfail).
Qed.

Lemma failed_init_gives_key_error_witness :
  (configure Sample.genai_rejecting (py "bad") = Raise (py "invalid API key") \/
   GenerativeModel_new Sample.genai_rejecting
     (py "gemini-2.0-flash-thinking-exp-01-21") = Raise (py "invalid API key")) /\
  run (generate_response_with_chat
         (init Sample.genai_rejecting (Sample.store_of [Sample.chunk]) (py "bad"))
         Sample.question Sample.long_history 3 (Some Sample.catalog))
  = (Ok {| answer :=
             py "Error: Gemini API model not initialized. Please check your API key.";
           sources := Some []; document_request := None |},
     []).
Proof.
  assert (H : configure Sample.genai_rejecting (py "bad")
              = Raise (py "invalid API key") \/
              GenerativeModel_new Sample.genai_rejecting
                (py "gemini-2.0-flash-thinking-exp-01-21")
              = Raise (py "invalid API key")) by (left; reflexivity).
  split; [exact H|].
  exact (@failed_init_gives_key_error Sample.genai_rejecting
           (Sample.store_of [Sample.chunk]) (py "bad") (py "invalid API key")
           Sample.question Sample.long_history 3 (Some Sample.catalog) H).
Defined.
